(** * SOW editor: optimistic suggestions and their reconciliation

    A shallow embedding of the suggestion pipeline of the SOW editor:
    the chat panel that classifies an assistant reply and applies it to
    the Slate document at once (ChatPanel.handleSendMessage), the editor
    context that wraps the Slate editor (EditorProvider: insertText,
    replaceSelection, insertAtEnd, applySuggestion, undoLastChange), the
    zustand store that keeps the chat log and the suggestion history
    (useSOWStore), and the two accept/reject surfaces
    (InlineSuggestionActions and SuggestionPanel).

    The Slate editor, JSON.parse, String.prototype.trim and the
    conversions of JavaScript (a numeral to its Number value, a value to
    a string) are not code of the application; they are modelled here
    as far as the application calls them, each with a note on the
    fragment that is covered.  A string is the sequence of the UTF-8
    bytes of its text. *)

From Stdlib Require Import String Ascii List Arith Bool Lia ZArith DecimalString.
Import ListNotations.
Open Scope string_scope.
Open Scope list_scope.
Open Scope nat_scope.
Set Warnings "-register-all".

(** Concatenation of strings; [++] is kept for lists. *)
Infix "+++" := String.append (right associativity, at level 60).

(* ================================================================== *)
(** ** JSON values and JSON.parse *)

Module Json.

(** The values JSON.parse can return.  A number keeps its lexeme. *)
Inductive value : Type :=
| JNull
| JBool (b : bool)
| JNumber (lexeme : string)
| JString (s : string)
| JArray (items : list value)
| JObject (members : list (string * value)).

Definition quote : ascii := "034"%char.
Definition backslash : ascii := "092"%char.

Definition is_ws (c : ascii) : bool :=
  match nat_of_ascii c with
  | 32 | 9 | 10 | 13 => true
  | _ => false
  end.

Fixpoint skip_ws (s : list ascii) : list ascii :=
  match s with
  | c :: r => if is_ws c then skip_ws r else s
  | [] => []
  end.

Definition is_digit (c : ascii) : bool :=
  (48 <=? nat_of_ascii c) && (nat_of_ascii c <=? 57).

Fixpoint span_digits (s : list ascii) : list ascii * list ascii :=
  match s with
  | c :: r =>
      if is_digit c
      then let (ds, rest) := span_digits r in (c :: ds, rest)
      else ([], s)
  | [] => ([], [])
  end.

Definition hex_digit (c : ascii) : option nat :=
  let n := nat_of_ascii c in
  if (48 <=? n) && (n <=? 57) then Some (n - 48)
  else if (65 <=? n) && (n <=? 70) then Some (n - 55)
  else if (97 <=? n) && (n <=? 102) then Some (n - 87)
  else None.

(** UTF-8 bytes of one UTF-16 code unit (an escape \uXXXX).  The two
    halves of a surrogate pair are encoded one by one. *)
Definition utf8 (u : nat) : list ascii :=
  if u <? 128 then [ascii_of_nat u]
  else if u <? 2048 then
    [ascii_of_nat (192 + u / 64); ascii_of_nat (128 + u mod 64)]
  else
    [ascii_of_nat (224 + u / 4096);
     ascii_of_nat (128 + (u / 64) mod 64);
     ascii_of_nat (128 + u mod 64)].

Definition escape (c : ascii) : option ascii :=
  match nat_of_ascii c with
  | 34 => Some quote
  | 92 => Some backslash
  | 47 => Some "/"%char
  | 98 => Some (ascii_of_nat 8)
  | 102 => Some (ascii_of_nat 12)
  | 110 => Some (ascii_of_nat 10)
  | 114 => Some (ascii_of_nat 13)
  | 116 => Some (ascii_of_nat 9)
  | _ => None
  end.

(** The characters of a string literal after its opening quote, up to
    and including the closing quote. *)
Fixpoint parse_chars (s : list ascii) (acc : list ascii)
  : option (string * list ascii) :=
  match s with
  | [] => None
  | c :: r =>
      if Ascii.eqb c quote
      then Some (string_of_list_ascii (rev acc), r)
      else if Ascii.eqb c backslash then
        match r with
        | [] => None
        | e :: r' =>
            if Ascii.eqb e "u"%char then
              match r' with
              | h1 :: h2 :: h3 :: h4 :: r'' =>
                  match hex_digit h1, hex_digit h2,
                        hex_digit h3, hex_digit h4 with
                  | Some a, Some b, Some c', Some d =>
                      parse_chars r''
                        (rev (utf8 (a * 4096 + b * 256 + c' * 16 + d)) ++ acc)
                  | _, _, _, _ => None
                  end
              | _ => None
              end
            else
              match escape e with
              | Some x => parse_chars r' (x :: acc)
              | None => None
              end
        end
      else if nat_of_ascii c <? 32 then None
      else parse_chars r (c :: acc)
  end.

(** A number: an optional minus sign, an integer part without a
    leading zero (unless it is the digit 0 alone), an optional fraction
    (a dot and digits) and an optional exponent (e or E, a sign, digits). *)
Definition parse_number (s : list ascii) : option (string * list ascii) :=
  let '(sign, s1) :=
    match s with
    | c :: r => if Ascii.eqb c "-"%char then ([c], r) else ([], s)
    | [] => ([], s)
    end in
  let '(int, s2) := span_digits s1 in
  let int_ok :=
    match int with
    | [] => false
    | [_] => true
    | d :: _ => negb (Ascii.eqb d "0"%char)
    end in
  if negb int_ok then None else
  let frac :=
    match s2 with
    | c :: r =>
        if Ascii.eqb c "."%char then
          let '(ds, rest) := span_digits r in
          match ds with
          | [] => None
          | _ => Some (c :: ds, rest)
          end
        else Some ([], s2)
    | [] => Some ([], s2)
    end in
  match frac with
  | None => None
  | Some (fr, s3) =>
      let exp :=
        match s3 with
        | c :: r =>
            if Ascii.eqb c "e"%char || Ascii.eqb c "E"%char then
              let '(sg, r1) :=
                match r with
                | x :: r' =>
                    if Ascii.eqb x "+"%char || Ascii.eqb x "-"%char
                    then ([x], r') else ([], r)
                | [] => ([], r)
                end in
              let '(ds, rest) := span_digits r1 in
              match ds with
              | [] => None
              | _ => Some (c :: sg ++ ds, rest)
              end
            else Some ([], s3)
        | [] => Some ([], s3)
        end in
      match exp with
      | None => None
      | Some (ex, s4) =>
          Some (string_of_list_ascii (sign ++ int ++ fr ++ ex), s4)
      end
  end.

Fixpoint starts_with (p s : list ascii) : option (list ascii) :=
  match p, s with
  | [], _ => Some s
  | a :: p', b :: s' => if Ascii.eqb a b then starts_with p' s' else None
  | _ :: _, [] => None
  end.

Section Containers.
(** The parser of one value, as the loops over the elements of an
    array and the members of an object call it. *)
Variable pv : list ascii -> option (value * list ascii).

Fixpoint parse_elements (fuel : nat) (s : list ascii) (acc : list value)
  : option (list value * list ascii) :=
  match fuel with
  | 0 => None
  | S k =>
      match pv s with
      | None => None
      | Some (v, r) =>
          match skip_ws r with
          | c :: r' =>
              if Ascii.eqb c ","%char then parse_elements k r' (v :: acc)
              else if Ascii.eqb c "]"%char then Some (rev (v :: acc), r')
              else None
          | [] => None
          end
      end
  end.

Fixpoint parse_members (fuel : nat) (s : list ascii)
         (acc : list (string * value))
  : option (list (string * value) * list ascii) :=
  match fuel with
  | 0 => None
  | S k =>
      match skip_ws s with
      | q :: r =>
          if negb (Ascii.eqb q quote) then None else
          match parse_chars r [] with
          | None => None
          | Some (key, r1) =>
              match skip_ws r1 with
              | c :: r2 =>
                  if negb (Ascii.eqb c ":"%char) then None else
                  match pv r2 with
                  | None => None
                  | Some (v, r3) =>
                      match skip_ws r3 with
                      | d :: r4 =>
                          if Ascii.eqb d ","%char
                          then parse_members k r4 ((key, v) :: acc)
                          else if Ascii.eqb d "}"%char
                          then Some (rev ((key, v) :: acc), r4)
                          else None
                      | [] => None
                      end
                  end
              | [] => None
              end
          end
      | [] => None
      end
  end.
End Containers.

Definition chars (s : string) : list ascii := list_ascii_of_string s.

Fixpoint parse_value (fuel : nat) (s : list ascii)
  : option (value * list ascii) :=
  match fuel with
  | 0 => None
  | S n =>
      match skip_ws s with
      | [] => None
      | c :: r =>
          if Ascii.eqb c "{"%char then
            match skip_ws r with
            | d :: r' =>
                if Ascii.eqb d "}"%char then Some (JObject [], r')
                else
                  match parse_members (parse_value n) (S (length r)) r [] with
                  | Some (ms, rest) => Some (JObject ms, rest)
                  | None => None
                  end
            | [] => None
            end
          else if Ascii.eqb c "["%char then
            match skip_ws r with
            | d :: r' =>
                if Ascii.eqb d "]"%char then Some (JArray [], r')
                else
                  match parse_elements (parse_value n) (S (length r)) r [] with
                  | Some (vs, rest) => Some (JArray vs, rest)
                  | None => None
                  end
            | [] => None
            end
          else if Ascii.eqb c quote then
            match parse_chars r [] with
            | Some (str, rest) => Some (JString str, rest)
            | None => None
            end
          else if Ascii.eqb c "t"%char then
            option_map (fun rest => (JBool true, rest))
                       (starts_with (chars "rue") r)
          else if Ascii.eqb c "f"%char then
            option_map (fun rest => (JBool false, rest))
                       (starts_with (chars "alse") r)
          else if Ascii.eqb c "n"%char then
            option_map (fun rest => (JNull, rest))
                       (starts_with (chars "ull") r)
          else
            match parse_number (c :: r) with
            | Some (lex, rest) => Some (JNumber lex, rest)
            | None => None
            end
      end
  end.

(** JSON.parse(text): [None] stands for the SyntaxError it throws. *)
Definition parse (text : string) : option value :=
  let s := chars text in
  match parse_value (S (length s)) s with
  | Some (v, rest) =>
      match skip_ws rest with
      | [] => Some v
      | _ :: _ => None
      end
  | None => None
  end.

(** A JavaScript value read off a parsed payload: [None] is undefined. *)
Definition js := option value.

(** Property read [o.key] on an object built by JSON.parse: of two
    members with one key the later one stays. *)
Fixpoint member (key : string) (ms : list (string * value)) : js :=
  match ms with
  | [] => None
  | (k, v) :: rest =>
      match member key rest with
      | Some v' => Some v'
      | None => if String.eqb k key then Some v else None
      end
  end.

(** [v.key] for a value that is not null: only objects carry the
    properties of the payload. *)
Definition get (v : value) (key : string) : js :=
  match v with
  | JObject ms => member key ms
  | _ => None
  end.

(** *** Numbers

    JSON.parse reads a numeral as the nearest double (ties to the even
    significand); [to_double] computes it from the lexeme, and
    [number_to_string] is Number::toString on it: the shortest decimal
    that reads back as the same double. *)
Inductive Double : Type :=
| DZero (negative : bool)
| DFinite (negative : bool) (m e : Z)      (* m * 2^e, 0 < m < 2^53 *)
| DInfinity (negative : bool).

Definition digits_value (ds : list ascii) : Z :=
  fold_left (fun acc c => (10 * acc + (Z.of_nat (nat_of_ascii c) - 48))%Z) ds 0%Z.

(** The double nearest to a / b (both positive), ties to the even
    significand; [None] is the overflow to Infinity. *)
Definition round_ratio (a b : Z) : option (Z * Z) :=
  let k := (Z.log2 a - Z.log2 b)%Z in
  let k' := if (a * 2 ^ Z.max 0 (- k) <? b * 2 ^ Z.max 0 k)%Z
            then (k - 1)%Z else k in
  let e := Z.max (k' - 52) (-1074) in
  let num := (a * 2 ^ Z.max 0 (- e))%Z in
  let den := (b * 2 ^ Z.max 0 e)%Z in
  let q := (num / den)%Z in
  let r := (num mod den)%Z in
  let m := if (2 * r <? den)%Z then q
           else if (2 * r =? den)%Z then (if Z.even q then q else q + 1)%Z
           else (q + 1)%Z in
  let '(m, e) := if (m =? 2 ^ 53)%Z then (2 ^ 52, e + 1)%Z else (m, e) in
  if (971 <? e)%Z then None else Some (m, e).

(** mant * 10^exp10 as a fraction. *)
Definition fraction (mant exp10 : Z) : Z * Z :=
  if (0 <=? exp10)%Z then (mant * 10 ^ exp10, 1)%Z
  else (mant, 10 ^ (- exp10))%Z.

Definition decimal_digits (n : Z) : Z :=
  Z.of_nat (String.length (NilZero.string_of_uint (N.to_uint (Z.to_N n)))).

Definition round_decimal (negative : bool) (mant exp10 : Z) : Double :=
  if (mant =? 0)%Z then DZero negative
  else
    let magnitude := (decimal_digits mant + exp10)%Z in
    if (310 <? magnitude)%Z then DInfinity negative
    else if (magnitude <? -330)%Z then DZero negative
    else
      let '(a, b) := fraction mant exp10 in
      match round_ratio a b with
      | None => DInfinity negative
      | Some (m, e) =>
          if (m =? 0)%Z then DZero negative else DFinite negative m e
      end.

Definition to_double (lexeme : string) : Double :=
  let s := chars lexeme in
  let '(negative, s1) :=
    match s with
    | c :: r => if Ascii.eqb c "-"%char then (true, r) else (false, s)
    | [] => (false, s)
    end in
  let '(int, s2) := span_digits s1 in
  let '(frac, s3) :=
    match s2 with
    | c :: r => if Ascii.eqb c "."%char then span_digits r else ([], s2)
    | [] => ([], s2)
    end in
  let exponent :=
    match s3 with
    | c :: r =>
        if Ascii.eqb c "e"%char || Ascii.eqb c "E"%char then
          match r with
          | x :: r' =>
              if Ascii.eqb x "-"%char then (- digits_value (fst (span_digits r')))%Z
              else if Ascii.eqb x "+"%char then digits_value (fst (span_digits r'))
              else digits_value (fst (span_digits r))
          | [] => 0%Z
          end
        else 0%Z
    | [] => 0%Z
    end in
  round_decimal negative (digits_value (int ++ frac))
                (exponent - Z.of_nat (length frac)).

(** Equality of two Number values: the two zeros are equal. *)
Definition double_eqb (x y : Double) : bool :=
  match x, y with
  | DZero _, DZero _ => true
  | DFinite s m e, DFinite s' m' e' =>
      Bool.eqb s s' && (m =? m')%Z && (e =? e')%Z
  | DInfinity s, DInfinity s' => Bool.eqb s s'
  | _, _ => false
  end.

Definition digits_of (n : Z) : string :=
  NilZero.string_of_uint (N.to_uint (Z.to_N n)).

Fixpoint zeros (n : nat) : string :=
  match n with
  | 0 => ""
  | S k => String "0" (zeros k)
  end.

(** Does the decimal s * 10^x round to the double m * 2^e? *)
Definition reads_as (m e s x : Z) : bool :=
  let '(a, b) := fraction s x in
  match round_ratio a b with
  | Some (m', e') => (m' =? m)%Z && (e' =? e)%Z
  | None => false
  end.

(** The n with 10^(n-1) <= m * 2^e < 10^n. *)
Definition decimal_exponent (m e : Z) : Z :=
  let '(a, b) := if (0 <=? e)%Z then (m * 2 ^ e, 1)%Z else (m, 2 ^ (- e))%Z in
  let below (n : Z) : bool :=       (* a / b < 10^n *)
    (a * 10 ^ Z.max 0 (- n) <? b * 10 ^ Z.max 0 n)%Z in
  let guess := ((Z.log2 a - Z.log2 b) * 30103 / 100000)%Z in
  let fix up (fuel : nat) (n : Z) : Z :=
    match fuel with
    | 0 => n
    | S k => if below n then n else up k (n + 1)%Z
    end in
  let fix down (fuel : nat) (n : Z) : Z :=
    match fuel with
    | 0 => n
    | S k => if below (n - 1)%Z then down k (n - 1)%Z else n
    end in
  up 8 (down 8 guess).

(** The shortest decimal that reads as m * 2^e: its digits s and the
    exponent n, for k = 1, 2, ... digits. *)
Fixpoint shortest (fuel : nat) (k : Z) (m e n : Z) : Z * Z :=
  let '(a, b) := if (0 <=? e)%Z then (m * 2 ^ e, 1)%Z else (m, 2 ^ (- e))%Z in
  let num := (a * 10 ^ Z.max 0 (k - n))%Z in
  let den := (b * 10 ^ Z.max 0 (n - k))%Z in
  let lo := (num / den)%Z in
  let r := (num mod den)%Z in
  let hi := (lo + 1)%Z in
  let lo_ok := reads_as m e lo (n - k) in
  let hi_ok := reads_as m e hi (n - k) in
  let pick_hi := if (hi =? 10 ^ k)%Z then (10 ^ (k - 1), n + 1)%Z else (hi, n) in
  match fuel with
  | 0 => (lo, n)
  | S f =>
      if lo_ok && hi_ok then
        if (2 * r <? den)%Z then (lo, n)
        else if (2 * r =? den)%Z then (if Z.even lo then (lo, n) else pick_hi)
        else pick_hi
      else if lo_ok then (lo, n)
      else if hi_ok then pick_hi
      else shortest f (k + 1)%Z m e n
  end.

Definition format (s n : Z) : string :=
  let ds := digits_of s in
  let k := Z.of_nat (String.length ds) in
  if (k <=? n)%Z && (n <=? 21)%Z then ds +++ zeros (Z.to_nat (n - k))
  else if (0 <? n)%Z && (n <=? 21)%Z then
    substring 0 (Z.to_nat n) ds +++ "." +++
    substring (Z.to_nat n) (Z.to_nat (k - n)) ds
  else if (-6 <? n)%Z && (n <=? 0)%Z then
    "0." +++ zeros (Z.to_nat (- n)) +++ ds
  else
    let x := (n - 1)%Z in
    let ex := (if (x <? 0)%Z then "-" else "+") +++ digits_of (Z.abs x) in
    if (k =? 1)%Z then ds +++ "e" +++ ex
    else substring 0 1 ds +++ "." +++ substring 1 (Z.to_nat (k - 1)) ds
           +++ "e" +++ ex.

(** Number::toString. *)
Definition double_to_string (d : Double) : string :=
  match d with
  | DZero _ => "0"
  | DInfinity s => if s then "-Infinity" else "Infinity"
  | DFinite sg m e =>
      let '(s, n) := shortest 17 1 m e (decimal_exponent m e) in
      (if sg then "-" else "") +++ format s n
  end.

Definition number_to_string (lexeme : string) : string :=
  double_to_string (to_double lexeme).

(** A numeral is falsy when its Number value is a zero. *)
Definition number_is_zero (lexeme : string) : bool :=
  match to_double lexeme with
  | DZero _ => true
  | _ => false
  end.

(** [x === y] on two numerals. *)
Definition number_eqb (x y : string) : bool :=
  double_eqb (to_double x) (to_double y).

(** ToBoolean. *)
Definition truthy (v : value) : bool :=
  match v with
  | JNull => false
  | JBool b => b
  | JNumber lex => negb (number_is_zero lex)
  | JString s => negb (String.eqb s "")
  | JArray _ | JObject _ => true
  end.

(** [x === lit] for a string literal [lit]. *)
Definition strict_eq_string (x : js) (lit : string) : bool :=
  match x with
  | Some (JString s) => String.eqb s lit
  | _ => false
  end.

(** ToString of a value JSON.parse built, as string concatenation and
    Array.prototype.join apply it.  [None] is the TypeError of an object
    whose own member toString hides the method: no value of a payload
    is callable.  Every other object reads [object Object]; an array is
    its elements joined by commas, null as the empty string. *)
Fixpoint to_string (v : value) : option string :=
  match v with
  | JNull => Some "null"
  | JBool b => Some (if b then "true" else "false")
  | JNumber lexeme => Some (number_to_string lexeme)
  | JString s => Some s
  | JArray items =>
      (fix join (l : list value) : option string :=
         match l with
         | [] => Some ""
         | x :: rest =>
             match match x with
                   | JNull => Some ""
                   | _ => to_string x
                   end, join rest with
             | Some a, Some b =>
                 Some match rest with
                      | [] => a
                      | _ :: _ => a +++ "," +++ b
                      end
             | _, _ => None
             end
         end) items
  | JObject ms =>
      match member "toString" ms with
      | Some _ => None
      | None => Some "[object Object]"
      end
  end.

(** ToString of any value of a payload, undefined included. *)
Definition js_to_string (x : js) : option string :=
  match x with
  | Some v => to_string v
  | None => Some "undefined"
  end.

End Json.

(** How a call ends: it returns, or it throws; either way it leaves a
    state behind. *)
Inductive Completion (A : Type) : Type :=
| Normal (a : A)
| Throw (a : A).
Arguments Normal {A} a.
Arguments Throw {A} a.

Definition state_of {A : Type} (c : Completion A) : A :=
  match c with
  | Normal a | Throw a => a
  end.

(* ================================================================== *)
(** ** The Slate editor behind [editorRef]

    The editor object is created by
    [withHistory(withReact(createEditor()))]; the application reads its
    fields [selection] and [history.undos] and calls its methods
    [insertText], [select], [end], [string] and [undo].  The model covers
    a document that is one text leaf: the document is its characters and
    a point is an offset into them.  Recording of operations follows the
    [apply] override of the history plugin: a set_selection operation is
    never saved; a saved operation joins the newest batch or opens a new
    one, and the oldest batch is dropped beyond one hundred.  When an
    operation joins is the one decision on which releases of
    slate-history differ (after a mere change of selection in the same
    tick); the editor carries that rule as [joins], and nothing proved
    below depends on which one it is. *)

Module Slate.

Definition Point := nat.

Record Range : Type := mkRange { anchor : Point; focus : Point }.

Definition range_start (r : Range) : Point := Nat.min (anchor r) (focus r).
Definition range_end (r : Range) : Point := Nat.max (anchor r) (focus r).
Definition is_collapsed (r : Range) : bool := anchor r =? focus r.
Definition range_eqb (r1 r2 : Range) : bool :=
  (anchor r1 =? anchor r2) && (focus r1 =? focus r2).
Definition collapsed_at (p : Point) : Range := mkRange p p.

Inductive Operation : Type :=
| insert_text (offset : nat) (text : list ascii)
| remove_text (offset : nat) (text : list ascii)
| set_selection (properties newProperties : option Range).

Record Batch : Type := mkBatch {
  operations : list Operation;       (* in the order they were applied *)
  selectionBefore : option Range
}.

(** Both stacks have the newest batch at the head. *)
Record History : Type := mkHistory {
  undos : list Batch;
  redos : list Batch
}.

Record Editor : Type := mkEditor {
  doc : list ascii;
  selection : option Range;
  history : History;
  tick : list Operation;   (* editor.operations: applied since the last flush *)
  joins : list Operation -> Operation -> Batch -> bool
    (* the plugin's rule: does an operation, after the ones of the tick,
       join the newest batch? *)
}.

(** *** Operations on the document *)

Definition transform_point (op : Operation) (p : Point) : Point :=
  match op with
  | insert_text o t => if o <=? p then p + length t else p
  | remove_text o t => if o <=? p then p - Nat.min (p - o) (length t) else p
  | set_selection _ _ => p
  end.

Definition transform_range (op : Operation) (r : Range) : Range :=
  mkRange (transform_point op (anchor r)) (transform_point op (focus r)).

Definition transform_doc (op : Operation) (d : list ascii) : list ascii :=
  match op with
  | insert_text o t => firstn o d ++ t ++ skipn o d
  | remove_text o t => firstn o d ++ skipn (o + length t) d
  | set_selection _ _ => d
  end.

Definition transform_selection (op : Operation) (sel : option Range)
  : option Range :=
  match op with
  | set_selection _ new => new
  | _ => option_map (transform_range op) sel
  end.

(** The core [apply]: transform document and selection, log the
    operation for the running tick. *)
Definition base_apply (op : Operation) (e : Editor) : Editor :=
  mkEditor (transform_doc op (doc e))
           (transform_selection op (selection e))
           (history e)
           (tick e ++ [op])
           (joins e).

Definition inverse (op : Operation) : Operation :=
  match op with
  | insert_text o t => remove_text o t
  | remove_text o t => insert_text o t
  | set_selection old new => set_selection new old
  end.

(** *** The history plugin *)

Definition shouldSave (op : Operation) : bool :=
  match op with
  | set_selection _ _ => false
  | _ => true
  end.

Definition shouldMerge (op : Operation) (prev : option Operation) : bool :=
  match op, prev with
  | insert_text o _, Some (insert_text po pt) => o =? po + length pt
  | remove_text o t, Some (remove_text po _) => o + length t =? po
  | _, _ => false
  end.

Definition last_operation (b : Batch) : option Operation :=
  last (map Some (operations b)) None.

(** The rule of the releases that look at editor.operations alone: an
    operation joins when anything was applied in the running tick, or
    when it continues the previous insertion or deletion. *)
Definition joins_by_tick (ops : list Operation) (op : Operation)
           (lastBatch : Batch) : bool :=
  match ops with
  | _ :: _ => true
  | [] => shouldMerge op (last_operation lastBatch)
  end.

(** The undo stack holds at most one hundred batches: the oldest goes. *)
Definition capped (batches : list Batch) : list Batch := firstn 100 batches.

Definition record (op : Operation) (e : Editor) : History :=
  match undos (history e) with
  | [] => mkHistory [mkBatch [op] (selection e)] []
  | lastBatch :: older =>
      if joins e (tick e) op lastBatch
      then mkHistory
             (mkBatch (operations lastBatch ++ [op])
                      (selectionBefore lastBatch) :: older) []
      else mkHistory
             (capped (mkBatch [op] (selection e) :: lastBatch :: older)) []
  end.

(** [e.apply] of the editor with history. *)
Definition apply (op : Operation) (e : Editor) : Editor :=
  let h := if shouldSave op then record op e else history e in
  base_apply op (mkEditor (doc e) (selection e) h (tick e) (joins e)).

(** [Transforms.setSelection]: nothing without a selection, and no
    operation when the selection is already the one asked for. *)
Definition setSelection (r : Range) (e : Editor) : Editor :=
  match selection e with
  | None => e
  | Some cur =>
      if range_eqb cur r then e
      else apply (set_selection (Some cur) (Some r)) e
  end.

(** [editor.select(target)] with a range. *)
Definition select (r : Range) (e : Editor) : Editor :=
  match selection e with
  | Some _ => setSelection r e
  | None => apply (set_selection None (Some r)) e
  end.

(** [editor.end([])]: the point after the last character. *)
Definition end_ (e : Editor) : Point := length (doc e).

(** [editor.string(range)]. *)
Definition string_ (r : Range) (e : Editor) : list ascii :=
  firstn (range_end r - range_start r) (skipn (range_start r) (doc e)).

(** [editor.insertText(text)]: nothing without a selection; an expanded
    selection is deleted first and collapses to its start; the text is
    inserted at the cursor only when it is not empty. *)
Definition insertText (t : list ascii) (e : Editor) : Editor :=
  match selection e with
  | None => e
  | Some r =>
      let e1 :=
        if is_collapsed r then e
        else
          setSelection (collapsed_at (range_start r))
            (apply (remove_text (range_start r) (string_ r e)) e) in
      match t with
      | [] => e1
      | _ :: _ => apply (insert_text (range_start r) t) e1
      end
  end.

(** A value that is no string and has a length of its own: an array
    with elements, an object with a member length. *)
Definition has_length (text : Json.js) : bool :=
  match text with
  | Some (Json.JArray (_ :: _)) => true
  | Some (Json.JObject ms) =>
      match Json.member "length" ms with
      | Some _ => true
      | None => false
      end
  | _ => false
  end.

(** [editor.insertText(text)] with whatever a payload holds as [text]
    (editor.marks is null).  Nothing happens without a selection.  With
    one, an expanded selection is deleted first, then [text.length > 0]
    decides: null and undefined throw a TypeError there; a boolean, a
    number, an empty array and an object without a member length have
    no length above zero and nothing is inserted.  A string is inserted
    as [insertText] says.  An array with elements and an object with a
    member length would be handed to Slate as the text of an operation;
    what Slate makes of that is not modelled: [None]. *)
Definition insertText_of (text : Json.js) (e : Editor)
  : option (Completion Editor) :=
  match selection e with
  | None => Some (Normal e)
  | Some _ =>
      match text with
      | Some (Json.JString s) =>
          Some (Normal (insertText (list_ascii_of_string s) e))
      | None | Some Json.JNull => Some (Throw (insertText [] e))
      | _ =>
          if has_length text then None
          else Some (Normal (insertText [] e))
      end
  end.

(** [editor.undo()]: the inverses of the newest batch in reverse order,
    applied without saving; the selection of before the batch is put
    back when the batch has one; the batch moves to the redo stack. *)
Definition undo (e : Editor) : Editor :=
  match undos (history e) with
  | [] => e
  | batch :: older =>
      let e1 :=
        fold_left (fun acc op => base_apply op acc)
                  (map inverse (rev (operations batch))) e in
      let e2 :=
        match selectionBefore batch with
        | Some r =>
            match selection e1 with
            | None => e1
            | Some cur =>
                if range_eqb cur r then e1
                else base_apply (set_selection (Some cur) (Some r)) e1
            end
        | None => e1
        end in
      mkEditor (doc e2) (selection e2)
               (mkHistory older (batch :: redos (history e)))
               (tick e2) (joins e)
  end.

(** The end of a tick: [editor.operations] is emptied. *)
Definition flush (e : Editor) : Editor :=
  mkEditor (doc e) (selection e) (history e) [] (joins e).

Definition has_selection (e : Editor) : bool :=
  match selection e with
  | Some r => negb (is_collapsed r)
  | None => false
  end.

(** Points of the selection lie in the document. *)
Definition wf (e : Editor) : Prop :=
  match selection e with
  | Some r => anchor r <= length (doc e) /\ focus r <= length (doc e)
  | None => True
  end.

Definition fresh (d : string) (sel : option Range) : Editor :=
  mkEditor (list_ascii_of_string d) sel (mkHistory [] []) [] joins_by_tick.

End Slate.

(* ================================================================== *)
(** ** EditorContext: the adapter between the application and Slate *)

(** The record handed round as a suggestion.  [type], [content] and
    [explanation] are whatever the parsed payload holds under [action],
    [content] and [explanation]; [range] and [position] are read by
    applySuggestion and are absent on the suggestions the chat panel
    builds.  A missing [applied] reads as false. *)
Record Suggestion : Type := mkSuggestion {
  id : nat;
  type : Json.js;
  content : Json.js;
  explanation : Json.js;
  applied : bool;
  originalRequest : string;
  timestamp : nat;
  range : option Slate.Range;
  position : option Slate.Point
}.

Module EditorContext.

(** [editorRef] is null until the editor component has mounted. *)
Definition EditorRef := option Slate.Editor.

Definition newline : ascii := "010"%char.

(** The editor behind the reference after a call on it. *)
Definition on_ref (r : option (Completion Slate.Editor))
  : option (Completion EditorRef) :=
  match r with
  | Some (Normal e) => Some (Normal (Some e))
  | Some (Throw e) => Some (Throw (Some e))
  | None => None
  end.

Definition insertText (text : Json.js) (editorRef : EditorRef)
  : option (Completion EditorRef) :=
  match editorRef with
  | Some e => on_ref (Slate.insertText_of text e)
  | None => Some (Normal None)
  end.

Definition replaceSelection (newText : Json.js) (editorRef : EditorRef)
  : option (Completion EditorRef) :=
  match editorRef with
  | Some e => on_ref (Slate.insertText_of newText e)
  | None => Some (Normal None)
  end.

(** insertAtEnd.  The concatenation of the line feed and [text] makes a
    string of any value, or throws (Json.js_to_string) after the
    selection has been moved to the end. *)
Definition insertAtEnd (text : Json.js) (editorRef : EditorRef)
  : option (Completion EditorRef) :=
  match editorRef with
  | Some e =>
      let selection := Slate.selection e in
      let end_ := Slate.end_ e in
      let e1 := Slate.select (Slate.collapsed_at end_) e in
      match Json.js_to_string text with
      | Some s =>
          let e2 :=
            Slate.insertText (newline :: list_ascii_of_string s) e1 in
          Some (Normal (Some match selection with
                             | Some r => Slate.select r e2
                             | None => e2
                             end))
      | None => Some (Throw (Some e1))
      end
  | None => Some (Normal None)
  end.

(** applySuggestion.  The result is [None] only where Slate.insertText_of
    is: for a content that is an array with elements or an object with
    a member length, inserted into an editor that has a selection. *)
Definition applySuggestion (suggestion : option Suggestion)
           (editorRef : EditorRef) : option (Completion EditorRef) :=
  match editorRef, suggestion with
  | None, _ | _, None => Some (Normal editorRef)
  | Some e, Some sg =>
      if Json.strict_eq_string (type sg) "replace" then
        match range sg with
        | Some r => on_ref (Slate.insertText_of (content sg) (Slate.select r e))
        | None => replaceSelection (content sg) editorRef
        end
      else if Json.strict_eq_string (type sg) "insert" then
        match position sg with
        | Some p =>
            on_ref (Slate.insertText_of (content sg)
                      (Slate.select (Slate.collapsed_at p) e))
        | None => insertText (content sg) editorRef
        end
      else if Json.strict_eq_string (type sg) "append" then
        insertAtEnd (content sg) editorRef
      else insertText (content sg) editorRef
  end.

Definition undoLastChange (editorRef : EditorRef) : EditorRef :=
  match editorRef with
  | Some e =>
      if 0 <? length (Slate.undos (Slate.history e))
      then Some (Slate.undo e)
      else editorRef
  | None => None
  end.

Definition getSelectedText (editorRef : EditorRef) : list ascii :=
  match editorRef with
  | Some e =>
      match Slate.selection e with
      | Some r => Slate.string_ r e
      | None => []
      end
  | None => []
  end.

End EditorContext.

(* ================================================================== *)
(** ** useSOWStore: chat log, composing flag, suggestion history

    Of the store only the chat and suggestion slices are modelled.  The
    object literal of the store defines acceptSuggestion and
    rejectSuggestion twice; the later definitions (the ones on the
    pending suggestion) replace the earlier ones and are the ones every
    caller gets. *)

Inductive Role : Type := user | assistant.

Record ChatMessage : Type := mkChatMessage {
  msg_id : nat;
  role : Role;
  msg_content : Json.js;
  msg_explanation : Json.js;
  msg_suggestion : option Suggestion;
  hasSuggestion : bool;
  msg_timestamp : nat
}.

Inductive Resolution : Type := accepted | rejected.

(** An entry of suggestionHistory: the suggestion, its status and the
    time of acceptedAt or rejectedAt. *)
Record HistoryEntry : Type := mkHistoryEntry {
  entry : Suggestion;
  status : Resolution;
  resolvedAt : nat
}.

Module SOWStore.

Record State : Type := mkState {
  chatMessages : list ChatMessage;
  isClaudeTyping : bool;
  pendingSuggestion : option Suggestion;
  suggestionHistory : list HistoryEntry
}.

Definition initial : State := mkState [] false None [].

(** What a caller passes to addChatMessage; id and timestamp are added
    by the store from the clock. *)
Record MessageInput : Type := mkMessageInput {
  in_role : Role;
  in_content : Json.js;
  in_explanation : Json.js;
  in_suggestion : option Suggestion;
  in_hasSuggestion : bool
}.

Definition addChatMessage (message : MessageInput) (now : nat) (s : State)
  : State :=
  mkState
    (chatMessages s ++
       [mkChatMessage now (in_role message) (in_content message)
                      (in_explanation message) (in_suggestion message)
                      (in_hasSuggestion message) now])
    (isClaudeTyping s) (pendingSuggestion s) (suggestionHistory s).

Definition setClaudeTyping (isTyping : bool) (s : State) : State :=
  mkState (chatMessages s) isTyping (pendingSuggestion s)
          (suggestionHistory s).

Definition setPendingSuggestion (suggestion : option Suggestion) (s : State)
  : State :=
  mkState (chatMessages s) (isClaudeTyping s) suggestion
          (suggestionHistory s).

Definition acceptSuggestion (now : nat) (s : State) : State :=
  match pendingSuggestion s with
  | Some p =>
      mkState (chatMessages s) (isClaudeTyping s) None
              (suggestionHistory s ++ [mkHistoryEntry p accepted now])
  | None => s
  end.

Definition rejectSuggestion (now : nat) (s : State) : State :=
  match pendingSuggestion s with
  | Some p =>
      mkState (chatMessages s) (isClaudeTyping s) None
              (suggestionHistory s ++ [mkHistoryEntry p rejected now])
  | None => s
  end.

Definition clearPendingSuggestion (s : State) : State :=
  mkState (chatMessages s) (isClaudeTyping s) None (suggestionHistory s).

End SOWStore.

(* ================================================================== *)
(** ** The application state and the chat panel *)

(** String.prototype.trim strips the white space and the line
    terminators of ECMAScript from both ends.  The strings of the model
    are the UTF-8 bytes of the text, so a white space character is one,
    two or three bytes:
    U+0009 to U+000D and U+0020 (one byte);
    U+00A0 (194 160);
    U+1680 (225 154 128);
    U+2000 to U+200A, U+2028, U+2029, U+202F (226 128 and 128 to 138,
    168, 169, 175);
    U+205F (226 129 159); U+3000 (227 128 128); U+FEFF (239 187 191). *)
Definition is_space (c : ascii) : bool :=
  let n := nat_of_ascii c in
  (9 <=? n) && (n <=? 13) || (n =? 32).

Definition is_space2 (a b : ascii) : bool :=
  (nat_of_ascii a =? 194) && (nat_of_ascii b =? 160).

Definition is_space3 (a b c : ascii) : bool :=
  let x := nat_of_ascii a in
  let y := nat_of_ascii b in
  let z := nat_of_ascii c in
  (x =? 225) && (y =? 154) && (z =? 128)
  || (x =? 226) && (y =? 128)
     && ((128 <=? z) && (z <=? 138) || (z =? 168) || (z =? 169) || (z =? 175))
  || (x =? 226) && (y =? 129) && (z =? 159)
  || (x =? 227) && (y =? 128) && (z =? 128)
  || (x =? 239) && (y =? 187) && (z =? 191).

Section Strip.
(** Recognisers of a white space character of one, two and three bytes,
    in the order the bytes are met. *)
Variable one : ascii -> bool.
Variable two : ascii -> ascii -> bool.
Variable three : ascii -> ascii -> ascii -> bool.

Fixpoint strip (s : list ascii) : list ascii :=
  match s with
  | a :: r1 =>
      if one a then strip r1
      else
        match r1 with
        | b :: r2 =>
            if two a b then strip r2
            else
              match r2 with
              | c :: r3 => if three a b c then strip r3 else s
              | [] => s
              end
        | [] => s
        end
  | [] => []
  end.

(** No white space character stands at the head of the bytes. *)
Definition stuck (s : list ascii) : Prop :=
  match s with
  | a :: r1 =>
      one a = false /\
      match r1 with
      | b :: r2 =>
          two a b = false /\
          match r2 with
          | c :: _ => three a b c = false
          | [] => True
          end
      | [] => True
      end
  | [] => True
  end.
End Strip.

Definition trim_start (s : list ascii) : list ascii :=
  strip is_space is_space2 is_space3 s.

(** The same from the end, on the reversed bytes. *)
Definition trim_end_reversed (s : list ascii) : list ascii :=
  strip is_space (fun b a => is_space2 a b) (fun c b a => is_space3 a b c) s.

Definition trim (s : string) : string :=
  string_of_list_ascii
    (rev (trim_end_reversed (rev (trim_start (list_ascii_of_string s))))).

(** The request handed to BedrockService.sendMessage. *)
Record Request : Type := mkRequest {
  userText : string;
  currentContent : list ascii;
  selectedText : list ascii;
  hasSelection : bool
}.

(** How the awaited call ends: with the text of the reply, or by
    throwing. *)
Inductive Reply : Type :=
| Resolved (response : string)
| Failed.

Record World : Type := mkWorld {
  editorRef : EditorContext.EditorRef;   (* EditorProvider *)
  editorValue : list ascii;              (* EditorProvider, set by onChange *)
  store : SOWStore.State;                (* useSOWStore *)
  inputValue : string;                   (* ChatPanel *)
  inFlight : list Request                (* requests awaiting their reply *)
}.

Definition with_store (f : SOWStore.State -> SOWStore.State) (w : World)
  : World :=
  mkWorld (editorRef w) (editorValue w) (f (store w)) (inputValue w)
          (inFlight w).

Definition with_editor (f : EditorContext.EditorRef -> EditorContext.EditorRef)
           (w : World) : World :=
  mkWorld (f (editorRef w)) (editorValue w) (store w) (inputValue w)
          (inFlight w).

(** The end of the tick in which a handler ran: Slate flushes, and its
    onChange hands the document to the provider (handleChange). *)
Definition settle (w : World) : World :=
  match editorRef w with
  | Some e =>
      match Slate.tick e with
      | [] => w
      | _ :: _ =>
          mkWorld (Some (Slate.flush e)) (Slate.doc e) (store w)
                  (inputValue w) (inFlight w)
      end
  | None => w
  end.

Definition text (s : string) : Json.js := Some (Json.JString s).

Module ChatPanel.

Definition apology : string :=
  "I apologize, but I encountered an error while processing your request. Please check your AWS configuration.".

(** handleSendMessage up to its await: the guard, the user message,
    the composing flag, the request. *)
Definition handleSendMessage (now : nat) (w : World) : World :=
  if String.eqb (trim (inputValue w)) "" || SOWStore.isClaudeTyping (store w)
  then w
  else
    let userMessage := trim (inputValue w) in
    let st :=
      SOWStore.setClaudeTyping true
        (SOWStore.addChatMessage
           (SOWStore.mkMessageInput user (text userMessage) None None false)
           now (store w)) in
    let selectedText := EditorContext.getSelectedText (editorRef w) in
    mkWorld (editorRef w) (editorValue w) st ""
            (inFlight w ++
               [mkRequest userMessage (editorValue w) selectedText
                          (0 <? length selectedText)]).

(** The test that sends a parsed reply down the suggestion branch:
    [parsedResponse && parsedResponse.type === 'suggestion']. *)
Definition is_suggestion (parsedResponse : Json.value) : bool :=
  Json.truthy parsedResponse
  && Json.strict_eq_string (Json.get parsedResponse "type") "suggestion".

Definition build_suggestion (parsedResponse : Json.value) (request : Request)
           (now : nat) : Suggestion :=
  mkSuggestion now
               (Json.get parsedResponse "action")
               (Json.get parsedResponse "content")
               (Json.get parsedResponse "explanation")
               true
               (userText request)
               now
               None None.

(** The message is stored, the finally block clears the composing
    flag, and the request is no longer awaited. *)
Definition finish (message : SOWStore.MessageInput) (now : nat) (w : World)
  : World :=
  mkWorld (editorRef w) (editorValue w)
          (SOWStore.setClaudeTyping false
             (SOWStore.addChatMessage message now (store w)))
          (inputValue w) (tl (inFlight w)).

Definition regular (response : string) : SOWStore.MessageInput :=
  SOWStore.mkMessageInput assistant (text response) None None false.

(** The message stored for a proposal that was applied. *)
Definition proposal_message (parsedResponse : Json.value)
           (suggestion : Suggestion) : SOWStore.MessageInput :=
  SOWStore.mkMessageInput assistant
                          (Json.get parsedResponse "content")
                          (Json.get parsedResponse "explanation")
                          (Some suggestion) true.

(** handleSendMessage from the reply on.  A reply that JSON.parse
    rejects leaves parsedResponse null and goes down the regular
    branch.  An exception thrown while the suggestion is applied lands
    in the catch block as a failure of the service does: the apology is
    stored, the editor stays as the throw left it.  [now] is the clock
    when the suggestion is built and [now'] when the message is stored.
    The result is [None] only where applySuggestion is. *)
Definition handleReply (request : Request) (reply : Reply) (now now' : nat)
           (w : World) : option World :=
  match reply with
  | Failed => Some (finish (regular apology) now' w)
  | Resolved response =>
      match Json.parse response with
      | Some parsedResponse =>
          if is_suggestion parsedResponse then
            let suggestion := build_suggestion parsedResponse request now in
            match EditorContext.applySuggestion (Some suggestion)
                                                (editorRef w) with
            | Some (Normal ref) =>
                Some (settle
                        (finish (proposal_message parsedResponse suggestion)
                                now' (with_editor (fun _ => ref) w)))
            | Some (Throw ref) =>
                Some (settle
                        (finish (regular apology) now'
                                (with_editor (fun _ => ref) w)))
            | None => None
            end
          else Some (finish (regular response) now' w)
      | None => Some (finish (regular response) now' w)
      end
  end.

End ChatPanel.

(** The classification the chat panel makes of a reply, read off the
    branch handleSendMessage takes. *)
Inductive Classified : Type :=
| Conversational (raw : string)
| Proposal (action content explanation : Json.js).

Definition classify (response : string) : Classified :=
  match Json.parse response with
  | Some payload =>
      if ChatPanel.is_suggestion payload
      then Proposal (Json.get payload "action") (Json.get payload "content")
                    (Json.get payload "explanation")
      else Conversational response
  | None => Conversational response
  end.

(** *** InlineSuggestionActions: the buttons under a suggestion message *)

Module InlineSuggestionActions.

Inductive Status : Type := pending | accepted_ | rejected_.

Definition handleAccept (now : nat) (w : World) (status : Status)
  : World * Status :=
  (with_store (SOWStore.acceptSuggestion now) w, accepted_).

Definition handleReject (now : nat) (w : World) (status : Status)
  : World * Status :=
  (settle
     (with_store (SOWStore.rejectSuggestion now)
        (with_editor EditorContext.undoLastChange w)),
   rejected_).

(** The component renders the two buttons only while its status is
    pending; afterwards it renders a label and a click has no handler
    to reach. *)
Definition clickAccept (now : nat) (w : World) (status : Status)
  : World * Status :=
  match status with
  | pending => handleAccept now w status
  | _ => (w, status)
  end.

Definition clickReject (now : nat) (w : World) (status : Status)
  : World * Status :=
  match status with
  | pending => handleReject now w status
  | _ => (w, status)
  end.

End InlineSuggestionActions.

(** *** SuggestionPanel: the panel on the pending suggestion of the store *)

Module SuggestionPanel.

(** The panel renders nothing, and so offers no button, without a
    pending suggestion.  An exception of applySuggestion leaves the
    handler before acceptSuggestion is called. *)
Definition handleAccept (now : nat) (w : World) : option (Completion World) :=
  match SOWStore.pendingSuggestion (store w) with
  | None => Some (Normal w)
  | Some pendingSuggestion =>
      match EditorContext.applySuggestion (Some pendingSuggestion)
                                          (editorRef w) with
      | Some (Normal ref) =>
          Some (Normal (settle
                          (with_store (SOWStore.acceptSuggestion now)
                             (with_editor (fun _ => ref) w))))
      | Some (Throw ref) =>
          Some (Throw (settle (with_editor (fun _ => ref) w)))
      | None => None
      end
  end.

Definition handleReject (now : nat) (w : World) : World :=
  match SOWStore.pendingSuggestion (store w) with
  | None => w
  | Some pendingSuggestion =>
      settle
        (with_store (SOWStore.rejectSuggestion now)
           (if applied pendingSuggestion
            then with_editor EditorContext.undoLastChange w
            else w))
  end.

End SuggestionPanel.

(* ================================================================== *)
(** ** Sessions *)

(** The world before the editor has mounted and before anything was
    typed or sent. *)
Definition initial : World :=
  mkWorld None [] SOWStore.initial "" [].

(** The bytes are white space characters, one after the other. *)
Inductive white : list ascii -> Prop :=
| white_nil : white []
| white_one a r : is_space a = true -> white r -> white (a :: r)
| white_two a b r : is_space2 a b = true -> white r -> white (a :: b :: r)
| white_three a b c r :
    is_space3 a b c = true -> white r -> white (a :: b :: c :: r).

(** Every character of the string is white space. *)
Definition blank (s : string) : Prop := white (list_ascii_of_string s).

(** U+00A0, the no-break space, and a chat input of white space only:
    a no-break space, an ideographic space (U+3000) and a tab. *)
Definition no_break_space : string :=
  String "194"%char (String "160"%char EmptyString).

Definition input_of_spaces : string :=
  no_break_space
    +++ String "227"%char (String "128"%char (String "128"%char EmptyString))
    +++ String "009"%char EmptyString.

(** Two editors hold the same document, selection and history; they may
    differ in the operations logged for the running tick. *)
Definition same_document (e e' : Slate.Editor) : Prop :=
  Slate.doc e' = Slate.doc e /\
  Slate.selection e' = Slate.selection e /\
  Slate.history e' = Slate.history e.

(** Text between double quotes, as it stands in a JSON document. *)
Definition quoted (s : string) : string :=
  String Json.quote (s +++ String Json.quote EmptyString).

(** The payload of the classifier example of the specification. *)
Definition payload_hello : string :=
  "{" +++ quoted "type" +++ ":" +++ quoted "suggestion" +++ ","
      +++ quoted "action" +++ ":" +++ quoted "insert" +++ ","
      +++ quoted "content" +++ ":" +++ quoted "Hello" +++ ","
      +++ quoted "explanation" +++ ":" +++ quoted "greeting" +++ "}".


(** A document with its cursor after the last character, nothing in the
    history. *)
Definition editor_ab : Slate.Editor :=
  Slate.fresh "ab" (Some (Slate.collapsed_at 2)).

Definition world_ab : World :=
  mkWorld (Some editor_ab) (Slate.doc editor_ab) SOWStore.initial "" [].

Definition request_hi : Request := mkRequest "hi" [] [] false.

(** The replace scenario of the specification: the words old text are
    selected. *)
Definition editor_old_text : Slate.Editor :=
  Slate.fresh "the old text here" (Some (Slate.mkRange 4 12)).

Definition suggest (action content : string) : Suggestion :=
  mkSuggestion 1 (text action) (text content) (text "why") true "hi" 1
               None None.

(** The document of the replace scenario before anybody has put a cursor
    in it: the editor has no selection. *)
Definition editor_unfocused : Slate.Editor :=
  Slate.fresh "the old text here" None.

(** An empty document that nobody has put a cursor in. *)
Definition editor_empty : Slate.Editor := Slate.fresh "" None.

(** The user has typed hello into an empty document; the cursor stands
    after it and the typing is the one batch of the undo history. *)
Definition editor_typed : Slate.Editor :=
  Slate.flush
    (Slate.insertText (list_ascii_of_string "hello")
                      (Slate.fresh "" (Some (Slate.collapsed_at 0)))).

Definition world_typed : World :=
  mkWorld (Some editor_typed) (Slate.doc editor_typed) SOWStore.initial "" [].

(** The session in which the user has sent hi from an editor that holds
    ab with the cursor at its end, and awaits the reply. *)
Definition session_sent : World :=
  ChatPanel.handleSendMessage
    1 (mkWorld (Some editor_ab) [] SOWStore.initial "hi" []).

(** A suggestion to insert the empty string. *)
Definition payload_empty_insert : string :=
  "{" +++ quoted "type" +++ ":" +++ quoted "suggestion" +++ ","
      +++ quoted "action" +++ ":" +++ quoted "insert" +++ ","
      +++ quoted "content" +++ ":" +++ quoted "" +++ ","
      +++ quoted "explanation" +++ ":" +++ quoted "nothing to add" +++ "}".

Definition world_old_text : World :=
  mkWorld (Some editor_old_text) (Slate.doc editor_old_text) SOWStore.initial
          "" [].

(** The suggestion of the replace scenario. *)
Definition payload_new_text : string :=
  "{" +++ quoted "type" +++ ":" +++ quoted "suggestion" +++ ","
      +++ quoted "action" +++ ":" +++ quoted "replace" +++ ","
      +++ quoted "content" +++ ":" +++ quoted "new text" +++ ","
      +++ quoted "explanation" +++ ":" +++ quoted "fresher" +++ "}".

(** The editor behind two references holds the same document, selection
    and history, or there is none behind either. *)
Definition same_editor (ref ref' : EditorContext.EditorRef) : Prop :=
  match ref, ref' with
  | Some e, Some e' => same_document e e'
  | None, None => True
  | _, _ => False
  end.




(** A pending suggestion that has not been applied. *)
Definition suggestion_ready : Suggestion :=
  mkSuggestion 5 (text "insert") (text "X") (text "why") false "hi" 5
               None None.

Definition world_ready : World :=
  mkWorld (Some editor_ab) (Slate.doc editor_ab)
          (SOWStore.setPendingSuggestion (Some suggestion_ready)
                                         SOWStore.initial)
          "" [].


(* ================================================================== *)
(** ** useSOWStore: the sections of the document and their change log

    A section, a template and the argument of updateSection are plain
    objects: properties in the order they were first written, one
    entry per key.  The clock gives an action the text of Date.now()
    (the id of a new section) and an ISO time. *)

Module SOWSections.

Definition Obj := list (string * Json.value).

(** [o.key]; [None] is undefined. *)
Fixpoint get (key : string) (o : Obj) : Json.js :=
  match o with
  | [] => None
  | (k, v) :: rest => if String.eqb k key then Some v else get key rest
  end.

(** [o.key = v]: an existing property keeps its place. *)
Fixpoint set (key : string) (v : Json.value) (o : Obj) : Obj :=
  match o with
  | [] => [(key, v)]
  | (k, v') :: rest =>
      if String.eqb k key then (key, v) :: rest
      else (k, v') :: set key v rest
  end.

(** [{...base, ...over}]. *)
Definition spread (base over : Obj) : Obj :=
  fold_left (fun acc kv => set (fst kv) (snd kv) acc) over base.

(** [x === y] on what an id can be: undefined, null, a boolean, a
    string, or a number (compared by its value).  Two arrays or objects
    are taken to be different objects. *)
Definition strict_eq (x y : Json.js) : bool :=
  match x, y with
  | None, None => true
  | Some Json.JNull, Some Json.JNull => true
  | Some (Json.JBool a), Some (Json.JBool b) => Bool.eqb a b
  | Some (Json.JString a), Some (Json.JString b) => String.eqb a b
  | Some (Json.JNumber a), Some (Json.JNumber b) => Json.number_eqb a b
  | _, _ => false
  end.

(** An entry of changeLog, by its [type]. *)
Inductive Change : Type :=
| ADD_SECTION (sectionId : Json.js) (timestamp : string) (data : Obj)
| UPDATE_SECTION (sectionId : Json.js) (timestamp : string)
                 (oldData newData : Obj)
| DELETE_SECTION (sectionId : Json.js) (timestamp : string) (data : Obj)
| ACCEPT_SUGGESTION (sectionId suggestionId : Json.js) (timestamp : string)
| REJECT_SUGGESTION (suggestionId : Json.js) (timestamp : string).

(** What loadTemplate reads of a template. *)
Record Template : Type := mkTemplate {
  tpl_sections : option (list Obj);
  tpl_title : option string
}.

Record State : Type := mkState {
  sections : list Obj;
  currentSection : Json.js;
  documentTitle : string;
  changeLog : list Change;
  currentTemplate : option Template
}.

Definition initial : State := mkState [] None "Untitled SOW" [] None.

(** [l.findIndex(p)]; [None] is -1. *)
Fixpoint findIndex {A : Type} (p : A -> bool) (l : list A) : option nat :=
  match l with
  | [] => None
  | x :: rest =>
      if p x then Some 0 else option_map S (findIndex p rest)
  end.

(** [l[i] = x] for an index inside the array. *)
Fixpoint assign {A : Type} (i : nat) (x : A) (l : list A) : list A :=
  match l, i with
  | [], _ => []
  | _ :: rest, 0 => x :: rest
  | y :: rest, S j => y :: assign j x rest
  end.

(** [l.splice(i, 1)]. *)
Definition splice1 {A : Type} (i : nat) (l : list A) : list A :=
  firstn i l ++ skipn (S i) l.

Definition has_id (sectionId : Json.js) (s : Obj) : bool :=
  strict_eq (get "id" s) sectionId.

Definition addSection (section : Obj) (now iso : string) (st : State) : State :=
  mkState
    (sections st ++
       [set "updatedAt" (Json.JString iso)
          (set "createdAt" (Json.JString iso)
             (spread [("id", Json.JString now)] section))])
    (currentSection st) (documentTitle st)
    (changeLog st ++ [ADD_SECTION (get "id" section) iso section])
    (currentTemplate st).

Definition updateSection (sectionId : Json.js) (updates : Obj) (iso : string)
           (st : State) : State :=
  match findIndex (has_id sectionId) (sections st) with
  | Some sectionIndex =>
      match nth_error (sections st) sectionIndex with
      | Some oldSection =>
          let newSection :=
            set "updatedAt" (Json.JString iso) (spread oldSection updates) in
          mkState (assign sectionIndex newSection (sections st))
                  (currentSection st) (documentTitle st)
                  (changeLog st ++
                     [UPDATE_SECTION sectionId iso oldSection newSection])
                  (currentTemplate st)
      | None => st
      end
  | None => st
  end.

Definition deleteSection (sectionId : Json.js) (iso : string) (st : State)
  : State :=
  match findIndex (has_id sectionId) (sections st) with
  | Some sectionIndex =>
      match nth_error (sections st) sectionIndex with
      | Some deletedSection =>
          mkState (splice1 sectionIndex (sections st))
                  (currentSection st) (documentTitle st)
                  (changeLog st ++
                     [DELETE_SECTION sectionId iso deletedSection])
                  (currentTemplate st)
      | None => st
      end
  | None => st
  end.

Definition setCurrentSection (sectionId : Json.js) (st : State) : State :=
  mkState (sections st) sectionId (documentTitle st) (changeLog st)
          (currentTemplate st).

(** [template.sections || []] and [template.title || 'Untitled SOW']:
    the empty title is falsy too. *)
Definition loadTemplate (template : Template) (st : State) : State :=
  mkState
    match tpl_sections template with
    | Some ss => ss
    | None => []
    end
    (currentSection st)
    match tpl_title template with
    | Some t => if String.eqb t "" then "Untitled SOW" else t
    | None => "Untitled SOW"
    end
    (changeLog st)
    (Some template).

(** The last element of an array and the ones before it. *)
Fixpoint unsnoc {A : Type} (l : list A) : option (list A * A) :=
  match l with
  | [] => None
  | x :: rest =>
      match unsnoc rest with
      | Some (init, y) => Some (x :: init, y)
      | None => Some ([], x)
      end
  end.

(** undo: reverse the last change of the log, then pop it. *)
Definition undo (st : State) : State :=
  match unsnoc (changeLog st) with
  | None => st
  | Some (earlier, lastChange) =>
      let sections' :=
        match lastChange with
        | ADD_SECTION sectionId _ _ =>
            filter (fun s => negb (has_id sectionId s)) (sections st)
        | UPDATE_SECTION sectionId _ oldData _ =>
            match findIndex (has_id sectionId) (sections st) with
            | Some sectionIndex => assign sectionIndex oldData (sections st)
            | None => sections st
            end
        | DELETE_SECTION _ _ data => sections st ++ [data]
        | ACCEPT_SUGGESTION _ _ _ | REJECT_SUGGESTION _ _ => sections st
        end in
      mkState sections' (currentSection st) (documentTitle st) earlier
              (currentTemplate st)
  end.

(** Every property has its key once. *)
Definition unique_keys (o : Obj) : Prop := NoDup (map fst o).

End SOWSections.

(* ================================================================== *)
(** ** The remaining actions and components *)

(** The actions of the chat and suggestion slices of the store, and a
    run of them. *)
Inductive StoreAction : Type :=
| AddChatMessage (message : SOWStore.MessageInput) (now : nat)
| SetClaudeTyping (isTyping : bool)
| SetPendingSuggestion (suggestion : option Suggestion)
| AcceptSuggestion (now : nat)
| RejectSuggestion (now : nat)
| ClearPendingSuggestion.

Definition dispatch (a : StoreAction) (s : SOWStore.State) : SOWStore.State :=
  match a with
  | AddChatMessage message now => SOWStore.addChatMessage message now s
  | SetClaudeTyping isTyping => SOWStore.setClaudeTyping isTyping s
  | SetPendingSuggestion suggestion => SOWStore.setPendingSuggestion suggestion s
  | AcceptSuggestion now => SOWStore.acceptSuggestion now s
  | RejectSuggestion now => SOWStore.rejectSuggestion now s
  | ClearPendingSuggestion => SOWStore.clearPendingSuggestion s
  end.

Definition run_store (actions : list StoreAction) (s : SOWStore.State)
  : SOWStore.State :=
  fold_left (fun acc a => dispatch a acc) actions s.

(** How often a run registers a suggestion as pending. *)
Fixpoint registrations (actions : list StoreAction) : nat :=
  match actions with
  | [] => 0
  | SetPendingSuggestion (Some _) :: rest => S (registrations rest)
  | _ :: rest => registrations rest
  end.

Definition pending_count (s : SOWStore.State) : nat :=
  match SOWStore.pendingSuggestion s with
  | Some _ => 1
  | None => 0
  end.

Module BedrockService.

(** The reply of sendMessage when no AWS credentials are configured. *)
Definition placeholder (userMessage : string) : string :=
  "I understand you said: " +++ quoted userMessage
    +++ ". This is a placeholder response. Configure AWS credentials in .env file to enable real Claude responses.".

(** sendMessage: without credentials the placeholder; with them
    whatever the call of the model gives, its failure rethrown. *)
Definition sendMessage (isConfigured : bool) (model : Reply)
           (userMessage : string) : Reply :=
  if negb isConfigured then Resolved (placeholder userMessage)
  else model.

End BedrockService.

(** Which buttons ChatPanel renders under a message: the accept and
    reject of InlineSuggestionActions, or the insert, replace, append
    and copy of MessageActions.  No message of the store has
    isSystemMessage set. *)
Definition shows_suggestion_actions (m : ChatMessage) : bool :=
  hasSuggestion m &&
  match msg_suggestion m with
  | Some _ => true
  | None => false
  end.

Definition shows_message_actions (m : ChatMessage) : bool :=
  match role m with
  | assistant => negb (hasSuggestion m)
  | user => false
  end.

(** *** InlineControls and the selection handler of SOWEditor

    The position of the controls is computed from the DOM rectangle of
    the selection; its type is left open. *)

Module InlineControls.

Section Controls.
Variable Position : Type.

Record State : Type := mkState {
  visible : bool;
  position : Position;
  suggestions : option (list Suggestion)
}.

Definition showInlineControls (pos : Position)
           (sugg : option (list Suggestion)) (c : State) : State :=
  mkState true pos sugg.

Definition hideInlineControls (c : State) : State :=
  mkState false (position c) (suggestions c).

Definition user_message (content : string) : SOWStore.MessageInput :=
  SOWStore.mkMessageInput user (text content) None None false.

Definition selected (w : World) : string :=
  string_of_list_ascii (EditorContext.getSelectedText (editorRef w)).

Definition handleAccept (w : World) (c : State) : World * State :=
  (w, hideInlineControls c).

Definition handleReject (w : World) (c : State) : World * State :=
  (w, hideInlineControls c).

Definition handleRevise (now : nat) (w : World) (c : State) : World * State :=
  (if String.eqb (selected w) "" then w
   else with_store
          (SOWStore.addChatMessage
             (user_message
                ("Please help me revise this text: " +++ quoted (selected w)))
             now) w,
   hideInlineControls c).

Definition handleAskClaude (now : nat) (w : World) (c : State)
  : World * State :=
  (if String.eqb (selected w) "" then w
   else with_store
          (SOWStore.addChatMessage
             (user_message
                ("I need help with this section: " +++ quoted (selected w)
                   +++ ". Can you provide suggestions for improvement?"))
             now) w,
   hideInlineControls c).


End Controls.

End InlineControls.

(** What can happen to a session: the editor mounts, the user types in
    the chat input or in the document, moves the selection, undoes,
    sends the chat input, the reply to the awaited request arrives, the
    user clicks a button under a message (accept or reject under a
    suggestion; insert, replace or append under a plain reply), a
    button of SuggestionPanel, or Revise or Ask of the inline controls.
    [reach_mount] puts any editor behind the reference, so it also
    stands for every change of the document that the model has no
    function for.  [reach_reply_beyond] is the reply whose content
    Slate.insertText_of does not cover: the handler stores the proposal
    or, had the editor thrown, the apology, and the editor is left in a
    state that is not described. *)
Inductive Reachable : World -> Prop :=
| reach_initial : Reachable initial
| reach_mount w e :
    Reachable w ->
    Reachable (with_editor (fun _ => Some e) w)
| reach_type_input w s :
    Reachable w ->
    Reachable (mkWorld (editorRef w) (editorValue w) (store w) s (inFlight w))
| reach_edit w t :
    Reachable w ->
    Reachable (settle (with_editor
                         (option_map (Slate.insertText t)) w))
| reach_select w r :
    Reachable w ->
    Reachable (settle (with_editor (option_map (Slate.select r)) w))
| reach_undo w :
    Reachable w ->
    Reachable (settle (with_editor (option_map Slate.undo) w))
| reach_submit w now :
    Reachable w ->
    Reachable (ChatPanel.handleSendMessage now w)
| reach_reply w request rest reply now now' w' :
    Reachable w ->
    inFlight w = request :: rest ->
    ChatPanel.handleReply request reply now now' w = Some w' ->
    Reachable w'
| reach_reply_beyond w request rest response payload now now' message e :
    Reachable w ->
    inFlight w = request :: rest ->
    ChatPanel.handleReply request (Resolved response) now now' w = None ->
    Json.parse response = Some payload ->
    message = ChatPanel.proposal_message
                payload (ChatPanel.build_suggestion payload request now)
    \/ message = ChatPanel.regular ChatPanel.apology ->
    Reachable (with_editor (fun _ => Some e) (ChatPanel.finish message now' w))
| reach_accept w now status :
    Reachable w ->
    Reachable (fst (InlineSuggestionActions.clickAccept now w status))
| reach_reject w now status :
    Reachable w ->
    Reachable (fst (InlineSuggestionActions.clickReject now w status))
| reach_message_action w m action c :
    Reachable w ->
    In m (SOWStore.chatMessages (store w)) ->
    shows_message_actions m = true ->
    In action [EditorContext.insertText; EditorContext.replaceSelection;
               EditorContext.insertAtEnd] ->
    action (msg_content m) (editorRef w) = Some c ->
    Reachable (settle (with_editor (fun _ => state_of c) w))
| reach_panel_accept w now c :
    Reachable w ->
    SuggestionPanel.handleAccept now w = Some c ->
    Reachable (state_of c)
| reach_panel_reject w now :
    Reachable w ->
    Reachable (SuggestionPanel.handleReject now w)
| reach_revise w now (c : InlineControls.State unit) :
    Reachable w ->
    Reachable (fst (InlineControls.handleRevise unit now w c))
| reach_ask w now (c : InlineControls.State unit) :
    Reachable w ->
    Reachable (fst (InlineControls.handleAskClaude unit now w c)).


(** Two sections with ids of their own, and a section without one. *)
Definition section_intro : SOWSections.Obj :=
  [("id", Json.JString "s1"); ("title", Json.JString "Intro")].

Definition section_scope : SOWSections.Obj :=
  [("id", Json.JString "s2"); ("title", Json.JString "Scope")].

Definition section_risks : SOWSections.Obj :=
  [("title", Json.JString "Risks")].

Definition document_two : SOWSections.State :=
  SOWSections.mkState [section_intro; section_scope] None "Untitled SOW" []
                      None.

Definition template_blank : SOWSections.Template :=
  SOWSections.mkTemplate (Some [section_risks]) (Some "").

(** The sections loadTemplate installs. *)
Definition template_sections (t : SOWSections.Template)
  : list SOWSections.Obj :=
  SOWSections.sections (SOWSections.loadTemplate t SOWSections.initial).

(** The bytes do not begin with a white space character. *)
Definition begins_well (l : list ascii) : Prop :=
  forall w r, l = w ++ r -> white w -> w = [].

(** A text does not begin with white space, nor end with it. *)
Definition trimmed (s : string) : Prop :=
  begins_well (list_ascii_of_string s) /\
  forall p w, list_ascii_of_string s = p ++ w -> white w -> w = [].

(** A reply that is JSON and no suggestion. *)
Definition payload_note : string :=
  "{" +++ quoted "type" +++ ":" +++ quoted "note" +++ ","
      +++ quoted "content" +++ ":" +++ quoted "X" +++ "}".

Definition world_draft : World :=
  mkWorld (Some editor_old_text) (Slate.doc editor_old_text) SOWStore.initial
          "  make it shorter " [].

(** A replace suggestion that names its range, and an insert suggestion
    that names its position. *)
Definition suggestion_ranged : Suggestion :=
  mkSuggestion 7 (text "replace") (text "new text") (text "why") false "hi" 7
               (Some (Slate.mkRange 4 12)) None.

Definition suggestion_positioned : Suggestion :=
  mkSuggestion 8 (text "insert") (text "very ") (text "why") false "hi" 8
               None (Some 4).

(** The document of the replace scenario with the cursor at its start. *)
Definition editor_cursor_at_start : Slate.Editor :=
  Slate.fresh "the old text here" (Some (Slate.collapsed_at 0)).

(** What a message of the chat may offer: a user message no buttons, an
    assistant message one of the two sets of buttons. *)
Definition offers_one_set (m : ChatMessage) : Prop :=
  match role m with
  | user =>
      shows_suggestion_actions m = false /\ shows_message_actions m = false
  | assistant =>
      xorb (shows_suggestion_actions m) (shows_message_actions m) = true
  end.

(** What every message of a session satisfies: a user message is not
    flagged as a suggestion, and a flagged message carries one. *)
Definition message_ok (m : ChatMessage) : Prop :=
  (role m = user -> hasSuggestion m = false) /\
  (hasSuggestion m = true -> msg_suggestion m <> None).

(** A suggestion without content, and one to append a number. *)
Definition payload_no_content : string :=
  "{" +++ quoted "type" +++ ":" +++ quoted "suggestion" +++ ","
      +++ quoted "action" +++ ":" +++ quoted "replace" +++ ","
      +++ quoted "explanation" +++ ":" +++ quoted "shorter" +++ "}".

Definition suggestion_number : Suggestion :=
  mkSuggestion 9 (text "append") (Some (Json.JNumber "1.50")) (text "why")
               true "hi" 9 None None.

Definition suggestion_missing (action : string) : Suggestion :=
  mkSuggestion 9 (text action) None (text "why") true "hi" 9 None None.

(* ================================================================== *)
(** * Properties *)

(** ** The guard of handleSendMessage *)

Lemma is_space2_first (a b : ascii) :
  is_space2 a b = true -> is_space a = false.
Proof.
  unfold is_space2, is_space. intros H.
  apply andb_true_iff in H as [H _]. apply Nat.eqb_eq in H.
  now rewrite H.
Qed.

Lemma is_space3_first (a b c : ascii) :
  is_space3 a b c = true -> is_space a = false /\ is_space2 a b = false.
Proof.
  unfold is_space3, is_space2, is_space. cbv zeta.
  generalize (nat_of_ascii a) (nat_of_ascii b) (nat_of_ascii c).
  intros x y z H.
  assert (Hx : 200 <= x).
  { repeat (rewrite ?orb_true_iff, ?andb_true_iff, ?Nat.eqb_eq in H). lia. }
  split.
  - apply orb_false_iff. split.
    + apply andb_false_iff. right. apply Nat.leb_gt. lia.
    + apply Nat.eqb_neq. lia.
  - apply andb_false_iff. left. apply Nat.eqb_neq.
    repeat (rewrite ?orb_true_iff, ?andb_true_iff, ?Nat.eqb_eq in H). lia.
Qed.

Lemma trim_start_blank (s : list ascii) : white s -> trim_start s = [].
Proof.
  unfold trim_start.
  induction 1 as [|a r Ha _ IH|a b r Hab _ IH|a b c r Habc _ IH]; simpl.
  - reflexivity.
  - now rewrite Ha.
  - now rewrite (is_space2_first _ _ Hab), Hab.
  - destruct (is_space3_first _ _ _ Habc) as [H1 H2].
    now rewrite H1, H2, Habc.
Qed.

Lemma trim_blank (s : string) : blank s -> trim s = "".
Proof.
  intros H. unfold trim. now rewrite (trim_start_blank _ H).
Qed.

Lemma handleSendMessage_in_flight (now : nat) (w : World) :
  length (inFlight w) = (if SOWStore.isClaudeTyping (store w) then 1 else 0) ->
  length (inFlight (ChatPanel.handleSendMessage now w))
  = (if SOWStore.isClaudeTyping (store (ChatPanel.handleSendMessage now w))
     then 1 else 0).
Proof.
  intros H. unfold ChatPanel.handleSendMessage.
  destruct (String.eqb (trim (inputValue w)) ""); simpl; [exact H|].
  destruct (SOWStore.isClaudeTyping (store w)) eqn:Ht; simpl;
    [rewrite Ht; exact H|].
  rewrite length_app, H. reflexivity.
Qed.

Lemma settle_store (w : World) : store (settle w) = store w.
Proof.
  unfold settle. destruct (editorRef w) as [e|]; [|reflexivity].
  now destruct (Slate.tick e).
Qed.

Lemma settle_inFlight (w : World) : inFlight (settle w) = inFlight w.
Proof.
  unfold settle. destruct (editorRef w) as [e|]; [|reflexivity].
  now destruct (Slate.tick e).
Qed.

Lemma settle_inputValue (w : World) : inputValue (settle w) = inputValue w.
Proof.
  unfold settle. destruct (editorRef w) as [e|]; [|reflexivity].
  now destruct (Slate.tick e).
Qed.

(** Whatever the reply, handleSendMessage ends by storing one assistant
    message (the reply as it is, the apology, or the proposal with its
    suggestion), clearing the composing flag and dropping the request. *)
Lemma handleReply_store request reply now now' w w' :
  ChatPanel.handleReply request reply now now' w = Some w' ->
  exists message,
    store w'
    = SOWStore.setClaudeTyping false
        (SOWStore.addChatMessage message now' (store w)) /\
    inFlight w' = tl (inFlight w) /\
    inputValue w' = inputValue w /\
    ((exists c, message = ChatPanel.regular c) \/
     (exists p sg, message = ChatPanel.proposal_message p sg)).
Proof.
  intros H. unfold ChatPanel.handleReply in H.
  destruct reply as [response|].
  - destruct (Json.parse response) as [v|].
    + destruct (ChatPanel.is_suggestion v).
      * destruct (EditorContext.applySuggestion _ _) as [[ref|ref]|];
          [| |discriminate]; injection H as <-;
          rewrite settle_inFlight, settle_store, settle_inputValue;
          eexists; (split; [reflexivity|]); (split; [reflexivity|]);
          (split; [reflexivity|]).
        -- right. now do 2 eexists.
        -- left. now eexists.
      * injection H as <-. eexists. repeat split. left. now eexists.
    + injection H as <-. eexists. repeat split. left. now eexists.
  - injection H as <-. eexists. repeat split. left. now eexists.
Qed.

Lemma handleReply_in_flight request reply now now' w w' :
  length (inFlight w) = 1 ->
  ChatPanel.handleReply request reply now now' w = Some w' ->
  inFlight w' = [] /\ SOWStore.isClaudeTyping (store w') = false.
Proof.
  intros Hlen H.
  destruct (handleReply_store _ _ _ _ _ _ H) as (m & -> & -> & _).
  destruct (inFlight w) as [|r [|r' l]]; simpl in *; try discriminate.
  now split.
Qed.

(** What a button of SuggestionPanel leaves of the store: the chat log
    and the composing flag. *)
Lemma panel_accept_store (now : nat) (w : World) (c : Completion World) :
  SuggestionPanel.handleAccept now w = Some c ->
  SOWStore.chatMessages (store (state_of c)) = SOWStore.chatMessages (store w) /\
  SOWStore.isClaudeTyping (store (state_of c))
  = SOWStore.isClaudeTyping (store w) /\
  inFlight (state_of c) = inFlight w /\
  (SOWStore.pendingSuggestion (store w) = None -> state_of c = w).
Proof.
  unfold SuggestionPanel.handleAccept. intros H.
  destruct (SOWStore.pendingSuggestion (store w)) as [p|] eqn:Hp.
  - destruct (EditorContext.applySuggestion _ _) as [[ref|ref]|];
      try discriminate; injection H as <-; cbn [state_of];
      rewrite settle_store, settle_inFlight; cbn;
      unfold SOWStore.acceptSuggestion; rewrite ?Hp;
      repeat split; discriminate.
  - injection H as <-. now repeat split.
Qed.

Lemma panel_reject_store (now : nat) (w : World) :
  SOWStore.chatMessages (store (SuggestionPanel.handleReject now w))
  = SOWStore.chatMessages (store w) /\
  SOWStore.isClaudeTyping (store (SuggestionPanel.handleReject now w))
  = SOWStore.isClaudeTyping (store w) /\
  inFlight (SuggestionPanel.handleReject now w) = inFlight w /\
  (SOWStore.pendingSuggestion (store w) = None ->
   SuggestionPanel.handleReject now w = w).
Proof.
  unfold SuggestionPanel.handleReject.
  destruct (SOWStore.pendingSuggestion (store w)) as [p|] eqn:Hp.
  - rewrite settle_store, settle_inFlight.
    destruct (applied p); cbn; unfold SOWStore.rejectSuggestion; rewrite Hp;
      repeat split; discriminate.
  - now repeat split.
Qed.

(** The composing flag is set exactly while one request is awaited. *)
Lemma in_flight_invariant (w : World) :
  Reachable w ->
  length (inFlight w) = (if SOWStore.isClaudeTyping (store w) then 1 else 0).
Proof.
  induction 1 as [ | w e _ IH | w s _ IH | w t _ IH | w r _ IH | w _ IH
                   | w now _ IH | w request rest reply now now' w' _ IH Hq Hr
                   | w request rest response payload now now' message e
                       _ IH Hq Hr Hp Hm
                   | w now status _ IH | w now status _ IH
                   | w m action c _ IH Hin Hs Ha Hc
                   | w now c _ IH Hc | w now _ IH
                   | w now c _ IH | w now c _ IH ].
  - reflexivity.
  - exact IH.
  - exact IH.
  - now rewrite settle_inFlight, settle_store.
  - now rewrite settle_inFlight, settle_store.
  - now rewrite settle_inFlight, settle_store.
  - now apply handleSendMessage_in_flight.
  - assert (Hlen : length (inFlight w) = 1).
    { rewrite IH. destruct (SOWStore.isClaudeTyping (store w));
        [reflexivity|]. rewrite Hq in IH. discriminate. }
    destruct (handleReply_in_flight _ _ _ _ _ _ Hlen Hr) as [-> ->].
    reflexivity.
  - cbn. rewrite Hq in *. cbn in *.
    destruct (SOWStore.isClaudeTyping (store w)); [|discriminate].
    now injection IH as ->.
  - destruct status; simpl; try exact IH.
    unfold SOWStore.acceptSuggestion.
    now destruct (SOWStore.pendingSuggestion (store w)).
  - destruct status; simpl; try exact IH.
    rewrite settle_inFlight, settle_store. simpl.
    unfold SOWStore.rejectSuggestion.
    now destruct (SOWStore.pendingSuggestion (store w)).
  - now rewrite settle_inFlight, settle_store.
  - destruct (panel_accept_store _ _ _ Hc) as (_ & -> & -> & _). exact IH.
  - destruct (panel_reject_store now w) as (_ & -> & -> & _). exact IH.
  - unfold InlineControls.handleRevise. cbn [fst].
    now destruct (String.eqb _ "").
  - unfold InlineControls.handleAskClaude. cbn [fst].
    now destruct (String.eqb _ "").
Qed.

(** C10.  While the assistant is composing, or when the chat input is
    empty or holds only white space (any white space or line terminator
    that String.prototype.trim strips), handleSendMessage changes nothing:
    no user message is stored, no request is sent, the document, the
    suggestions and the input stay as they are.  Hence in every
    reachable session at most one request awaits its reply. *)
Theorem submit_guard_is_noop :
  (forall (now : nat) (w : World),
      SOWStore.isClaudeTyping (store w) = true \/ blank (inputValue w) ->
      ChatPanel.handleSendMessage now w = w)
  /\ (forall w : World, Reachable w -> length (inFlight w) <= 1).
Proof.
  split.
  - intros now w [Ht | Hb]; unfold ChatPanel.handleSendMessage.
    + rewrite Ht. now rewrite orb_true_r.
    + now rewrite (trim_blank _ Hb).
  - intros w H. rewrite (in_flight_invariant w H).
    destruct (SOWStore.isClaudeTyping (store w)); lia.
Qed.

Lemma submit_guard_is_noop_witness :
  ChatPanel.handleSendMessage 7
    (mkWorld (Some editor_ab) [] (SOWStore.setClaudeTyping true SOWStore.initial)
             "again" [request_hi])
  = mkWorld (Some editor_ab) [] (SOWStore.setClaudeTyping true SOWStore.initial)
            "again" [request_hi]
  /\ ChatPanel.handleSendMessage 7
       (mkWorld (Some editor_ab) [] SOWStore.initial "   " [])
     = mkWorld (Some editor_ab) [] SOWStore.initial "   " []
  /\ ChatPanel.handleSendMessage 7
       (mkWorld (Some editor_ab) [] SOWStore.initial input_of_spaces [])
     = mkWorld (Some editor_ab) [] SOWStore.initial input_of_spaces [].
Proof.
  split; [|split].
  - apply (proj1 submit_guard_is_noop). left. reflexivity.
  - apply (proj1 submit_guard_is_noop). right.
    repeat (apply white_one; [reflexivity|]). apply white_nil.
  - apply (proj1 submit_guard_is_noop). right.
    apply white_two; [reflexivity|]. apply white_three; [reflexivity|].
    apply white_one; [reflexivity|]. apply white_nil.
Defined.

(** ** Classification of a reply *)

Lemma flush_settled (e : Slate.Editor) : Slate.tick e = [] -> Slate.flush e = e.
Proof. destruct e; simpl; intros ->; reflexivity. Qed.

Lemma settle_editorRef (w : World) :
  editorRef (settle w) = option_map Slate.flush (editorRef w).
Proof.
  unfold settle. destruct (editorRef w) as [e|] eqn:He; [|now rewrite He].
  destruct (Slate.tick e) eqn:Ht; simpl.
  - now rewrite He, (flush_settled e Ht).
  - reflexivity.
Qed.

Lemma strict_eq_string_true (x : Json.js) (lit : string) :
  Json.strict_eq_string x lit = true <-> x = text lit.
Proof.
  unfold Json.strict_eq_string, text.
  destruct x as [[| | |s| |]|]; try (split; discriminate).
  rewrite String.eqb_eq. split; [now intros ->|now intros [= ->]].
Qed.

(** C6.  A reply that JSON.parse rejects is classified as conversational
    text: handleSendMessage completes down its regular branch (it does
    not reach the catch block), stores one assistant message that
    carries the raw reply and no suggestion, and leaves the document and
    the suggestion state of the store untouched. *)
Theorem malformed_reply_is_conversational
        (request : Request) (response : string) (now now' : nat) (w : World) :
  Json.parse response = None ->
  classify response = Conversational response /\
  exists w',
    ChatPanel.handleReply request (Resolved response) now now' w = Some w' /\
    editorRef w' = editorRef w /\
    editorValue w' = editorValue w /\
    SOWStore.pendingSuggestion (store w') = SOWStore.pendingSuggestion (store w) /\
    SOWStore.suggestionHistory (store w') = SOWStore.suggestionHistory (store w) /\
    SOWStore.chatMessages (store w')
    = SOWStore.chatMessages (store w)
        ++ [mkChatMessage now' assistant (text response) None None false now'].
Proof.
  intros Hp. split.
  - unfold classify. now rewrite Hp.
  - eexists. unfold ChatPanel.handleReply. rewrite Hp.
    split; [reflexivity|]. simpl. repeat split.
Qed.

Lemma malformed_reply_is_conversational_witness :
  classify "Sure, here's some advice..."
  = Conversational "Sure, here's some advice..." /\
  exists w',
    ChatPanel.handleReply request_hi (Resolved "Sure, here's some advice...")
                          1 2 world_ab = Some w' /\
    editorRef w' = editorRef world_ab /\
    editorValue w' = editorValue world_ab /\
    SOWStore.pendingSuggestion (store w')
    = SOWStore.pendingSuggestion (store world_ab) /\
    SOWStore.suggestionHistory (store w')
    = SOWStore.suggestionHistory (store world_ab) /\
    SOWStore.chatMessages (store w')
    = SOWStore.chatMessages (store world_ab)
        ++ [mkChatMessage 2 assistant (text "Sure, here's some advice...")
                          None None false 2].
Proof.
  apply (malformed_reply_is_conversational request_hi
           "Sure, here's some advice..." 1 2 world_ab).
  vm_compute. reflexivity.
Defined.

(** A text is inserted by Slate's insertText, and the call returns. *)
Lemma insertText_of_text (c : string) (e : Slate.Editor) :
  Slate.insertText_of (text c) e
  = Some (Normal (Slate.insertText (list_ascii_of_string c) e)).
Proof.
  unfold Slate.insertText_of, Slate.insertText, text.
  now destruct (Slate.selection e).
Qed.

Lemma insertText_text (c : string) (ref : EditorContext.EditorRef) :
  EditorContext.insertText (text c) ref
  = Some (Normal (option_map (Slate.insertText (list_ascii_of_string c)) ref)).
Proof.
  destruct ref as [e|]; [|reflexivity]. simpl.
  now rewrite insertText_of_text.
Qed.

(** A suggestion whose content is text is applied without an
    exception, whatever its action. *)
Lemma applySuggestion_text (sg : Suggestion) (c : string)
      (ref : EditorContext.EditorRef) :
  content sg = text c ->
  exists ref', EditorContext.applySuggestion (Some sg) ref = Some (Normal ref').
Proof.
  intros Hc. unfold EditorContext.applySuggestion.
  destruct ref as [e|]; [|now eexists]. rewrite Hc.
  unfold EditorContext.replaceSelection, EditorContext.insertText,
    EditorContext.insertAtEnd.
  cbn [Json.js_to_string text Json.to_string].
  destruct (Json.strict_eq_string (type sg) "replace");
    [destruct (range sg); rewrite insertText_of_text; now eexists|].
  destruct (Json.strict_eq_string (type sg) "insert");
    [destruct (position sg); rewrite insertText_of_text; now eexists|].
  destruct (Json.strict_eq_string (type sg) "append");
    rewrite ?insertText_of_text; now eexists.
Qed.




(** ** Applying a proposal *)

(** C4, at the reply of the classifier example.  The proposal is applied
    to the document at once and the assistant message carries the
    suggestion record with applied = true, but the store gets no entry
    for it: handleSendMessage does not call setPendingSuggestion and
    does not write suggestionHistory.  The accept or the reject clicked
    under the message afterwards finds no pending suggestion and records
    nothing either. *)
Lemma apply_records_nothing_in_store :
  exists w' sg,
    ChatPanel.handleReply request_hi (Resolved payload_hello) 1 2 world_ab
    = Some w' /\
    option_map Slate.doc (editorRef w')
    = Some (list_ascii_of_string "abHello") /\
    map msg_suggestion (SOWStore.chatMessages (store w')) = [Some sg] /\
    applied sg = true /\
    SOWStore.suggestionHistory (store w') = [] /\
    SOWStore.pendingSuggestion (store w') = None /\
    SOWStore.suggestionHistory
      (store (fst (InlineSuggestionActions.clickAccept
                     3 w' InlineSuggestionActions.pending))) = [] /\
    SOWStore.suggestionHistory
      (store (fst (InlineSuggestionActions.clickReject
                     3 w' InlineSuggestionActions.pending))) = [].
Proof.
  do 2 eexists. split; [vm_compute; reflexivity|].
  repeat split.
Qed.

(** What handleSendMessage does with a proposal whose content is text,
    in general.  It applies the proposal to the document at once, before
    any accept or reject: the document is the one applySuggestion
    returns.  The suggestion record it builds has applied = true and the
    clock as id, and the assistant message stored for the reply carries
    that record.  The store gets no entry for the suggestion:
    suggestionHistory and pendingSuggestion are unchanged, so when the
    store held no pending suggestion, the accept or reject clicked under
    the message later finds none either and writes nothing to
    suggestionHistory. *)
Theorem proposal_is_applied_and_attached
        (request : Request) (response : string) (payload : Json.value)
        (c : string) (now now' : nat) (w : World) :
  Json.parse response = Some payload ->
  ChatPanel.is_suggestion payload = true ->
  Json.get payload "content" = text c ->
  let sg := ChatPanel.build_suggestion payload request now in
  exists w' ref,
    ChatPanel.handleReply request (Resolved response) now now' w = Some w' /\
    EditorContext.applySuggestion (Some sg) (editorRef w)
    = Some (Normal ref) /\
    option_map Slate.doc (editorRef w') = option_map Slate.doc ref /\
    option_map Slate.selection (editorRef w') = option_map Slate.selection ref /\
    option_map Slate.history (editorRef w') = option_map Slate.history ref /\
    applied sg = true /\
    id sg = now /\
    SOWStore.chatMessages (store w')
    = SOWStore.chatMessages (store w)
        ++ [mkChatMessage now' assistant (text c)
                          (Json.get payload "explanation") (Some sg) true now'] /\
    SOWStore.suggestionHistory (store w') = SOWStore.suggestionHistory (store w) /\
    SOWStore.pendingSuggestion (store w') = SOWStore.pendingSuggestion (store w) /\
    (SOWStore.pendingSuggestion (store w) = None ->
     forall (now'' : nat) (status : InlineSuggestionActions.Status),
       SOWStore.suggestionHistory
         (store (fst (InlineSuggestionActions.clickAccept now'' w' status)))
       = SOWStore.suggestionHistory (store w) /\
       SOWStore.suggestionHistory
         (store (fst (InlineSuggestionActions.clickReject now'' w' status)))
       = SOWStore.suggestionHistory (store w)).
Proof.
  intros Hp Hs Hc sg.
  assert (Ha : exists ref,
             EditorContext.applySuggestion (Some sg) (editorRef w)
             = Some (Normal ref))
    by (apply (applySuggestion_text sg c); exact Hc).
  destruct Ha as [ref Ha].
  eexists; exists ref.
  unfold ChatPanel.handleReply. rewrite Hp, Hs. fold sg. rewrite Ha.
  split; [reflexivity|]. split; [reflexivity|].
  rewrite settle_editorRef, settle_store. simpl. rewrite Hc.
  do 8 (split; [try reflexivity; now destruct ref|]).
  intros Hnone now'' st.
  assert (Hacc : forall s : SOWStore.State,
             SOWStore.pendingSuggestion s = None ->
             SOWStore.acceptSuggestion now'' s = s /\
             SOWStore.rejectSuggestion now'' s = s).
  { intros s Hs'. unfold SOWStore.acceptSuggestion, SOWStore.rejectSuggestion.
    now rewrite Hs'. }
  split; destruct st; cbn -[settle]; rewrite ?settle_store;
    cbn -[settle]; rewrite ?settle_store; try reflexivity.
  - match goal with
    | |- context [SOWStore.acceptSuggestion _ ?s] =>
        rewrite (proj1 (Hacc s Hnone))
    end. reflexivity.
  - cbn [ChatPanel.finish store].
    match goal with
    | |- context [SOWStore.rejectSuggestion _ ?s] =>
        rewrite (proj2 (Hacc s Hnone))
    end. reflexivity.
Qed.

Lemma proposal_is_applied_and_attached_witness :
  let sg := mkSuggestion 1 (text "insert") (text "Hello") (text "greeting")
                         true "hi" 1 None None in
  exists w' ref,
    ChatPanel.handleReply request_hi (Resolved payload_hello) 1 2 world_ab
    = Some w' /\
    EditorContext.applySuggestion (Some sg) (editorRef world_ab)
    = Some (Normal ref) /\
    option_map Slate.doc (editorRef w') = option_map Slate.doc ref /\
    option_map Slate.selection (editorRef w') = option_map Slate.selection ref /\
    option_map Slate.history (editorRef w') = option_map Slate.history ref /\
    applied sg = true /\
    id sg = 1 /\
    SOWStore.chatMessages (store w')
    = SOWStore.chatMessages (store world_ab)
        ++ [mkChatMessage 2 assistant (text "Hello") (text "greeting")
                          (Some sg) true 2] /\
    SOWStore.suggestionHistory (store w')
    = SOWStore.suggestionHistory (store world_ab) /\
    SOWStore.pendingSuggestion (store w')
    = SOWStore.pendingSuggestion (store world_ab) /\
    (SOWStore.pendingSuggestion (store world_ab) = None ->
     forall (now'' : nat) (status : InlineSuggestionActions.Status),
       SOWStore.suggestionHistory
         (store (fst (InlineSuggestionActions.clickAccept now'' w' status)))
       = SOWStore.suggestionHistory (store world_ab) /\
       SOWStore.suggestionHistory
         (store (fst (InlineSuggestionActions.clickReject now'' w' status)))
       = SOWStore.suggestionHistory (store world_ab)).
Proof.
  apply (proposal_is_applied_and_attached
           request_hi payload_hello
           (Json.JObject [("type", Json.JString "suggestion");
                          ("action", Json.JString "insert");
                          ("content", Json.JString "Hello");
                          ("explanation", Json.JString "greeting")])
           "Hello" 1 2 world_ab); vm_compute; reflexivity.
Defined.

(** ** The editor: what an insertion does to the document *)

Section SlateFacts.
Import Slate.

Lemma take_splice (n : nat) (d x : list ascii) :
  n <= length d -> firstn n (firstn n d ++ x) = firstn n d.
Proof.
  intros H. rewrite firstn_app, firstn_firstn, Nat.min_id.
  rewrite length_firstn, (Nat.min_l _ _ H), Nat.sub_diag. simpl.
  apply app_nil_r.
Qed.

Lemma drop_splice (n m : nat) (d x : list ascii) :
  n <= length d -> skipn (n + m) (firstn n d ++ x) = skipn m x.
Proof.
  intros H. rewrite skipn_app, length_firstn, (Nat.min_l _ _ H).
  rewrite skipn_all2 by (rewrite length_firstn; lia).
  simpl. f_equal. lia.
Qed.

Lemma apply_doc (op : Operation) (e : Editor) :
  doc (apply op e) = transform_doc op (doc e).
Proof. reflexivity. Qed.

Lemma setSelection_doc (r : Range) (e : Editor) :
  doc (setSelection r e) = doc e.
Proof.
  unfold setSelection. destruct (selection e) as [cur|]; [|reflexivity].
  now destruct (range_eqb cur r).
Qed.

Lemma setSelection_history (r : Range) (e : Editor) :
  history (setSelection r e) = history e.
Proof.
  unfold setSelection. destruct (selection e) as [cur|]; [|reflexivity].
  now destruct (range_eqb cur r).
Qed.

Lemma range_eqb_eq (r1 r2 : Range) : range_eqb r1 r2 = true -> r1 = r2.
Proof.
  destruct r1, r2. unfold range_eqb. simpl. intros H.
  apply andb_true_iff in H as [H1 H2].
  apply Nat.eqb_eq in H1, H2. now subst.
Qed.

Lemma select_doc (r : Range) (e : Editor) : doc (select r e) = doc e.
Proof.
  unfold select. destruct (selection e); [apply setSelection_doc|reflexivity].
Qed.

Lemma select_history (r : Range) (e : Editor) :
  history (select r e) = history e.
Proof.
  unfold select.
  destruct (selection e); [apply setSelection_history|reflexivity].
Qed.

Lemma select_selection (r : Range) (e : Editor) :
  selection (select r e) = Some r.
Proof.
  unfold select, setSelection. destruct (selection e) as [cur|] eqn:Hs.
  - destruct (range_eqb cur r) eqn:Heq; [|reflexivity].
    now rewrite Hs, (range_eqb_eq _ _ Heq).
  - reflexivity.
Qed.

Lemma string_length (r : Range) (e : Editor) :
  range_end r <= length (doc e) ->
  range_start r + length (string_ r e) = range_end r.
Proof.
  intros H. unfold string_. rewrite length_firstn, length_skipn.
  unfold range_start, range_end in *. lia.
Qed.

(** The document after insertText: the text between the two ends of
    the selection gives way to the inserted text. *)
Lemma insertText_doc (t : list ascii) (e : Editor) (r : Range) :
  wf e ->
  selection e = Some r ->
  doc (insertText t e)
  = firstn (range_start r) (doc e) ++ t ++ skipn (range_end r) (doc e).
Proof.
  intros Hwf Hs. unfold wf in Hwf. rewrite Hs in Hwf.
  assert (Hend : range_end r <= length (doc e))
    by (unfold range_end; lia).
  assert (Hstart : range_start r <= length (doc e))
    by (unfold range_start; lia).
  unfold insertText. rewrite Hs.
  destruct (is_collapsed r) eqn:Hc.
  - assert (Heq : range_end r = range_start r).
    { unfold is_collapsed in Hc. apply Nat.eqb_eq in Hc.
      unfold range_end, range_start. lia. }
    rewrite Heq. destruct t; [|reflexivity].
    simpl. symmetry. apply firstn_skipn.
  - assert (Hd : doc (setSelection (collapsed_at (range_start r))
                        (apply (remove_text (range_start r) (string_ r e)) e))
                 = firstn (range_start r) (doc e) ++ skipn (range_end r) (doc e)).
    { rewrite setSelection_doc, apply_doc. simpl.
      now rewrite (string_length r e Hend). }
    destruct t as [|a t]; [exact Hd|].
    rewrite apply_doc, Hd. simpl.
    rewrite (take_splice _ _ _ Hstart).
    replace (range_start r) with (range_start r + 0) at 2 by lia.
    rewrite (drop_splice _ _ _ _ Hstart). reflexivity.
Qed.

End SlateFacts.

(** ** Replace and append *)

(** C7, as the code has it: the editor has no selection at all (nobody
    has put a cursor in the document), and the replace proposal inserts
    its content nowhere: the document is what it was. *)
Lemma replace_without_selection_inserts_nothing :
  Slate.selection editor_unfocused = None /\
  Slate.has_selection editor_unfocused = false /\
  EditorContext.applySuggestion (Some (suggest "replace" "new text"))
                                (Some editor_unfocused)
  = Some (Normal (Some editor_unfocused)) /\
  Slate.doc editor_unfocused = list_ascii_of_string "the old text here".
Proof. repeat split. Qed.

(** C7, amended.  A replace proposal (the chat panel gives it no range)
    is applied by replaceSelection, which is the same call of insertText
    as an insertion at the cursor.  With a selection that is not empty
    the characters between its two ends, and only they, give way to one
    copy of the content; with a collapsed selection the content is
    inserted at the cursor and nothing else changes; without any
    selection there is no cursor and the editor stays as it is. *)
Theorem replace_overwrites_selection
        (sg : Suggestion) (c : string) (e : Slate.Editor) :
  type sg = text "replace" ->
  range sg = None ->
  content sg = text c ->
  Slate.wf e ->
  exists e',
    EditorContext.applySuggestion (Some sg) (Some e)
    = Some (Normal (Some e')) /\
    EditorContext.insertText (text c) (Some e) = Some (Normal (Some e')) /\
    (Slate.has_selection e = true ->
     forall r, Slate.selection e = Some r ->
       Slate.range_start r < Slate.range_end r /\
       Slate.doc e'
       = firstn (Slate.range_start r) (Slate.doc e)
           ++ list_ascii_of_string c
           ++ skipn (Slate.range_end r) (Slate.doc e)) /\
    (Slate.has_selection e = false ->
     forall p, Slate.selection e = Some (Slate.collapsed_at p) ->
       Slate.doc e'
       = firstn p (Slate.doc e) ++ list_ascii_of_string c
           ++ skipn p (Slate.doc e)) /\
    (Slate.selection e = None -> e' = e).
Proof.
  intros Ht Hr Hc Hwf.
  exists (Slate.insertText (list_ascii_of_string c) e).
  split; [|split; [|split; [|split]]].
  - unfold EditorContext.applySuggestion, EditorContext.replaceSelection.
    rewrite Hc, Ht, Hr.
    change (Json.strict_eq_string (text "replace") "replace") with true.
    cbv iota. now rewrite insertText_of_text.
  - apply insertText_text.
  - intros Hsel r Hs. split.
    + unfold Slate.has_selection in Hsel. rewrite Hs in Hsel.
      unfold Slate.is_collapsed in Hsel.
      apply negb_true_iff, Nat.eqb_neq in Hsel.
      unfold Slate.range_start, Slate.range_end. lia.
    + now apply insertText_doc.
  - intros _ p Hs.
    rewrite (insertText_doc _ _ _ Hwf Hs).
    unfold Slate.range_start, Slate.range_end, Slate.collapsed_at. simpl.
    now rewrite Nat.min_id, Nat.max_id.
  - intros Hs. unfold Slate.insertText. now rewrite Hs.
Qed.

Lemma replace_overwrites_selection_witness :
  exists e',
    EditorContext.applySuggestion (Some (suggest "replace" "new text"))
                                  (Some editor_old_text)
    = Some (Normal (Some e')) /\
    EditorContext.insertText (text "new text") (Some editor_old_text)
    = Some (Normal (Some e')) /\
    Slate.doc e' = list_ascii_of_string "the new text here".
Proof.
  destruct (replace_overwrites_selection
              (suggest "replace" "new text") "new text" editor_old_text)
    as (e' & Ha & Hi & Hsel & _);
    [reflexivity | reflexivity | reflexivity | vm_compute; lia |].
  exists e'. split; [exact Ha|]. split; [exact Hi|].
  destruct (Hsel eq_refl (Slate.mkRange 4 12) eq_refl) as [_ Hd].
  exact Hd.
Defined.

(** C8, as the code has it: appending to an empty document that had no
    selection leaves a cursor at the end of the document. *)
Lemma append_without_selection_leaves_cursor :
  Slate.selection editor_empty = None /\
  exists e',
    EditorContext.applySuggestion (Some (suggest "append" "# New Section"))
                                  (Some editor_empty)
    = Some (Normal (Some e')) /\
    Slate.doc e'
    = EditorContext.newline :: list_ascii_of_string "# New Section" /\
    Slate.selection e' = Some (Slate.collapsed_at 14) /\
    Slate.selection e' <> None.
Proof.
  split; [reflexivity|]. eexists. split; [vm_compute; reflexivity|].
  repeat split. discriminate.
Qed.

(** C8, amended.  An append proposal moves to the end of the document
    and inserts a line feed followed by the content there.  A selection
    that existed before is the selection afterwards.  When there was no
    selection, the cursor stays where the insertion left it: at the end
    of the document. *)
Theorem append_inserts_at_end_and_restores_selection
        (sg : Suggestion) (c : string) (e : Slate.Editor) :
  type sg = text "append" ->
  content sg = text c ->
  exists e',
    EditorContext.applySuggestion (Some sg) (Some e)
    = Some (Normal (Some e')) /\
    Slate.doc e'
    = Slate.doc e ++ EditorContext.newline :: list_ascii_of_string c /\
    (forall r, Slate.selection e = Some r -> Slate.selection e' = Some r) /\
    (Slate.selection e = None ->
     Slate.selection e' = Some (Slate.collapsed_at (length (Slate.doc e')))).
Proof.
  intros Ht Hc.
  set (t := EditorContext.newline :: list_ascii_of_string c).
  set (e1 := Slate.select (Slate.collapsed_at (Slate.end_ e)) e).
  assert (Hs1 : Slate.selection e1 = Some (Slate.collapsed_at (Slate.end_ e)))
    by apply select_selection.
  assert (Hd1 : Slate.doc e1 = Slate.doc e) by apply select_doc.
  assert (Hwf1 : Slate.wf e1).
  { unfold Slate.wf. rewrite Hs1, Hd1. unfold Slate.end_. simpl. lia. }
  assert (Hd2 : Slate.doc (Slate.insertText t e1) = Slate.doc e ++ t).
  { rewrite (insertText_doc t e1 _ Hwf1 Hs1), Hd1.
    unfold Slate.range_start, Slate.range_end, Slate.end_. simpl.
    rewrite Nat.min_id, Nat.max_id, firstn_all, skipn_all.
    now rewrite app_nil_r. }
  assert (Hs2 : Slate.selection (Slate.insertText t e1)
                = Some (Slate.collapsed_at (length (Slate.doc e ++ t)))).
  { unfold Slate.insertText. rewrite Hs1.
    unfold Slate.is_collapsed. simpl. rewrite Nat.eqb_refl. subst t.
    simpl. rewrite Hs1. simpl.
    unfold Slate.range_start, Slate.transform_range, Slate.collapsed_at. simpl.
    rewrite Nat.min_id, Nat.leb_refl, length_app. simpl.
    unfold Slate.end_. reflexivity. }
  eexists. split; [|split; [|split]].
  - unfold EditorContext.applySuggestion. rewrite Hc, Ht. simpl.
    reflexivity.
  - fold t. fold e1. destruct (Slate.selection e); [|exact Hd2].
    now rewrite select_doc.
  - intros r Hs. rewrite Hs. apply select_selection.
  - intros Hs. rewrite Hs. fold t. fold e1. rewrite Hd2. exact Hs2.
Qed.

Lemma append_inserts_at_end_and_restores_selection_witness :
  exists e',
    EditorContext.applySuggestion (Some (suggest "append" "# New Section"))
                                  (Some editor_old_text)
    = Some (Normal (Some e')) /\
    Slate.doc e'
    = Slate.doc editor_old_text
        ++ EditorContext.newline :: list_ascii_of_string "# New Section" /\
    (forall r, Slate.selection editor_old_text = Some r ->
               Slate.selection e' = Some r) /\
    (Slate.selection editor_old_text = None ->
     Slate.selection e' = Some (Slate.collapsed_at (length (Slate.doc e')))).
Proof.
  apply (append_inserts_at_end_and_restores_selection
           (suggest "append" "# New Section") "# New Section" editor_old_text);
    reflexivity.
Defined.

(** ** Rejecting an applied suggestion *)

(** C1, at a suggestion whose application recorded no batch.  The user
    types hello, the assistant suggests to insert the empty string, the
    suggestion is shown as applied and the document still reads hello.
    handleReject is written to undo the change that was automatically
    applied; it undoes the newest batch of the editor's history, which
    is the typing of the user, and the document is empty afterwards:
    not the content from before the application. *)
Lemma reject_after_empty_insert_undoes_typing :
  exists w1 sg,
    ChatPanel.handleReply request_hi (Resolved payload_empty_insert) 1 2
                          world_typed = Some w1 /\
    map msg_suggestion (SOWStore.chatMessages (store w1)) = [Some sg] /\
    applied sg = true /\
    option_map Slate.doc (editorRef world_typed)
    = Some (list_ascii_of_string "hello") /\
    option_map Slate.doc (editorRef w1)
    = Some (list_ascii_of_string "hello") /\
    option_map Slate.doc
      (editorRef (fst (InlineSuggestionActions.handleReject
                         3 w1 InlineSuggestionActions.pending)))
    = Some (list_ascii_of_string "").
Proof.
  do 2 eexists. split; [vm_compute; reflexivity|].
  repeat split.
Qed.

(** ** Reject on an empty undo history *)

Lemma same_editor_flush (ref : EditorContext.EditorRef) :
  same_editor ref (option_map Slate.flush ref).
Proof. destruct ref as [e|]; simpl; [|exact I]. now repeat split. Qed.

Lemma undoLastChange_empty (ref : EditorContext.EditorRef) :
  (forall e, ref = Some e -> Slate.undos (Slate.history e) = []) ->
  EditorContext.undoLastChange ref = ref.
Proof.
  intros H. destruct ref as [e|]; [|reflexivity]. simpl.
  now rewrite (H e eq_refl).
Qed.

(** No handler of a session registers a suggestion with the store:
    setPendingSuggestion has no caller, so the store never holds a
    pending suggestion and its history stays empty. *)
Lemma nothing_is_registered (w : World) :
  Reachable w ->
  SOWStore.pendingSuggestion (store w) = None /\
  SOWStore.suggestionHistory (store w) = [].
Proof.
  induction 1 as [ | w e _ IH | w s _ IH | w t _ IH | w r _ IH | w _ IH
                   | w now _ IH | w request rest reply now now' w' _ IH Hq Hr
                   | w request rest response payload now now' message e
                       _ IH Hq Hr Hp Hm
                   | w now st _ IH | w now st _ IH
                   | w m action c _ IH Hin Hs Ha Hc
                   | w now c _ IH Hc | w now _ IH
                   | w now c _ IH | w now c _ IH ].
  - now split.
  - exact IH.
  - exact IH.
  - now rewrite settle_store.
  - now rewrite settle_store.
  - now rewrite settle_store.
  - unfold ChatPanel.handleSendMessage.
    destruct (String.eqb (trim (inputValue w)) ""
              || SOWStore.isClaudeTyping (store w)); exact IH.
  - destruct (handleReply_store _ _ _ _ _ _ Hr) as (m & -> & _). exact IH.
  - exact IH.
  - destruct IH as [Hp' Hh]. destruct st; simpl; try now split.
    unfold SOWStore.acceptSuggestion. rewrite Hp'. now split.
  - destruct IH as [Hp' Hh]. destruct st; simpl; try now split.
    rewrite settle_store. simpl. unfold SOWStore.rejectSuggestion.
    rewrite Hp'. now split.
  - now rewrite settle_store.
  - destruct (panel_accept_store _ _ _ Hc) as (_ & _ & _ & Hw).
    now rewrite (Hw (proj1 IH)).
  - destruct (panel_reject_store now w) as (_ & _ & _ & Hw).
    now rewrite (Hw (proj1 IH)).
  - unfold InlineControls.handleRevise. cbn [fst].
    now destruct (String.eqb _ "").
  - unfold InlineControls.handleAskClaude. cbn [fst].
    now destruct (String.eqb _ "").
Qed.

(** C9.  With an empty undo history (or with no editor attached) the
    reject under a suggestion message completes: the guarded undo does
    nothing, the document is what it was, the control shows rejected.
    But the Rejected record is not made: rejectSuggestion enters the
    pending suggestion of the store in suggestionHistory, and in no
    session does the store hold one, because handleSendMessage never
    registers the suggestion it applies.  The store is left as it was,
    its history empty. *)
Theorem reject_on_empty_history_records_nothing (now : nat) (w : World) :
  Reachable w ->
  (forall e, editorRef w = Some e -> Slate.undos (Slate.history e) = []) ->
  let inline :=
    InlineSuggestionActions.clickReject now w InlineSuggestionActions.pending in
  same_editor (editorRef w) (editorRef (fst inline)) /\
  snd inline = InlineSuggestionActions.rejected_ /\
  store (fst inline) = store w /\
  SOWStore.suggestionHistory (store (fst inline)) = [].
Proof.
  intros Hr Hempty inline. subst inline.
  destruct (nothing_is_registered w Hr) as [Hp Hh].
  cbn [InlineSuggestionActions.clickReject].
  unfold InlineSuggestionActions.handleReject. cbn [fst snd].
  rewrite settle_editorRef, settle_store.
  cbn [with_store with_editor editorRef store].
  rewrite (undoLastChange_empty _ Hempty).
  unfold SOWStore.rejectSuggestion. rewrite Hp.
  split; [apply same_editor_flush|]. now repeat split.
Qed.

Lemma reject_on_empty_history_records_nothing_witness :
  exists w1 sg,
    ChatPanel.handleReply request_hi (Resolved payload_hello) 2 3 session_sent
    = Some w1 /\
    option_map Slate.doc (editorRef w1)
    = Some (list_ascii_of_string "abHello") /\
    map msg_suggestion (SOWStore.chatMessages (store w1)) = [None; Some sg] /\
    applied sg = true /\
    let w2 := settle (with_editor (option_map Slate.undo) w1) in
    option_map Slate.doc (editorRef w2) = Some (list_ascii_of_string "ab") /\
    option_map (fun e => Slate.undos (Slate.history e)) (editorRef w2)
    = Some [] /\
    let inline :=
      InlineSuggestionActions.clickReject 9 w2 InlineSuggestionActions.pending in
    same_editor (editorRef w2) (editorRef (fst inline)) /\
    snd inline = InlineSuggestionActions.rejected_ /\
    store (fst inline) = store w2 /\
    SOWStore.suggestionHistory (store (fst inline)) = [].
Proof.
  do 2 eexists. split; [vm_compute; reflexivity|].
  split; [reflexivity|]. split; [reflexivity|]. split; [reflexivity|].
  split; [reflexivity|]. split; [reflexivity|].
  apply reject_on_empty_history_records_nothing.
  - apply reach_undo.
    eapply (reach_reply session_sent request_hi [] (Resolved payload_hello) 2 3);
      [|reflexivity|vm_compute; reflexivity].
    apply (reach_submit
             (mkWorld (Some editor_ab) [] SOWStore.initial "hi" []) 1).
    apply (reach_type_input (with_editor (fun _ => Some editor_ab) initial) "hi").
    apply reach_mount. apply reach_initial.
  - intros e [= <-]. reflexivity.
Defined.

(** ** Resolving twice *)






(** ** Accept *)

(** The accept under a suggestion message of the chat, the path of the
    suggestions the chat panel has applied, does not touch the document:
    the editor and the content the provider holds are the ones from
    before the call. *)
Lemma inline_accept_keeps_document
      (now : nat) (w : World) (status : InlineSuggestionActions.Status) :
  editorRef (fst (InlineSuggestionActions.handleAccept now w status))
  = editorRef w /\
  editorValue (fst (InlineSuggestionActions.handleAccept now w status))
  = editorValue w.
Proof. split; reflexivity. Qed.


(* ================================================================== *)
(** * Further properties of the code *)

(** ** Sections and their change log *)

Section SectionFacts.
Import SOWSections.

Lemma unsnoc_app {A : Type} (l : list A) (x : A) :
  unsnoc (l ++ [x]) = Some (l, x).
Proof.
  induction l as [|y l IH]; [reflexivity|]. simpl. now rewrite IH.
Qed.

Lemma get_set_other (k k' : string) (v : Json.value) (o : Obj) :
  k' <> k -> get k (set k' v o) = get k o.
Proof.
  intros Hne. induction o as [|[k0 v0] o IH]; simpl.
  - now rewrite (proj2 (String.eqb_neq k' k) Hne).
  - destruct (String.eqb k0 k') eqn:Hk; simpl.
    + apply String.eqb_eq in Hk. subst k0.
      now rewrite (proj2 (String.eqb_neq k' k) Hne).
    + destruct (String.eqb k0 k); [reflexivity|exact IH].
Qed.

Lemma get_set_same (k : string) (v : Json.value) (o : Obj) :
  get k (set k v o) = Some v.
Proof.
  induction o as [|[k0 v0] o IH]; simpl.
  - now rewrite String.eqb_refl.
  - destruct (String.eqb k0 k) eqn:Hk; simpl.
    + now rewrite String.eqb_refl.
    + now rewrite Hk.
Qed.

Lemma get_spread_absent (k : string) (over base : Obj) :
  get k over = None -> get k (spread base over) = get k base.
Proof.
  unfold spread. revert base.
  induction over as [|[k0 v0] over IH]; intros base H; [reflexivity|].
  simpl in *. destruct (String.eqb k0 k) eqn:Hk; [discriminate|].
  rewrite (IH _ H). apply get_set_other. now apply String.eqb_neq.
Qed.

Lemma get_absent_not_in (k : string) (o : Obj) :
  ~ In k (map fst o) -> get k o = None.
Proof.
  induction o as [|[k0 v0] o IH]; [reflexivity|]. simpl. intros H.
  destruct (String.eqb k0 k) eqn:Hk.
  - apply String.eqb_eq in Hk. tauto.
  - apply IH. tauto.
Qed.

Lemma get_spread_present (k : string) (v : Json.value) (over base : Obj) :
  unique_keys over -> get k over = Some v ->
  get k (spread base over) = Some v.
Proof.
  unfold spread, unique_keys. revert base.
  induction over as [|[k0 v0] over IH]; intros base Hu H; [discriminate|].
  simpl in *. inversion Hu as [|? ? Hnin Hu']; subst.
  destruct (String.eqb k0 k) eqn:Hk.
  - injection H as ->. apply String.eqb_eq in Hk. subst k0.
    change (fold_left _ over (set k v base)) with (spread (set k v base) over).
    rewrite (get_spread_absent k over _ (get_absent_not_in _ _ Hnin)).
    apply get_set_same.
  - now apply IH.
Qed.

Lemma findIndex_none {A : Type} (p : A -> bool) (l : list A) :
  (forall x, In x l -> p x = false) -> findIndex p l = None.
Proof.
  induction l as [|x l IH]; [reflexivity|]. intros H. simpl.
  rewrite (H x (or_introl eq_refl)), IH; [reflexivity|].
  intros y Hy. apply H. now right.
Qed.

(** Where findIndex finds its element: the first one that passes. *)
Lemma findIndex_some {A : Type} (p : A -> bool) (l : list A) (i : nat) :
  findIndex p l = Some i ->
  exists pre x post,
    l = pre ++ x :: post /\ length pre = i /\ p x = true /\
    (forall y, In y pre -> p y = false).
Proof.
  revert i. induction l as [|x l IH]; intros i H; [discriminate|].
  simpl in H. destruct (p x) eqn:Hp.
  - injection H as <-. exists [], x, l. repeat split; auto.
    intros y [].
  - destruct (findIndex p l) as [j|]; [|discriminate].
    injection H as <-.
    destruct (IH j eq_refl) as (pre & y & post & -> & Hlen & Hy & Hpre).
    exists (x :: pre), y, post. repeat split; simpl; auto.
    intros z [<-|Hz]; auto.
Qed.

Lemma findIndex_found {A : Type} (p : A -> bool) (pre post : list A) (x : A) :
  (forall y, In y pre -> p y = false) -> p x = true ->
  findIndex p (pre ++ x :: post) = Some (length pre).
Proof.
  intros Hpre Hx. induction pre as [|y pre IH]; simpl.
  - now rewrite Hx.
  - rewrite (Hpre y (or_introl eq_refl)), IH; [reflexivity|].
    intros z Hz. apply Hpre. now right.
Qed.

Lemma findIndex_exists {A : Type} (p : A -> bool) (l : list A) (x : A) :
  In x l -> p x = true -> exists i, findIndex p l = Some i.
Proof.
  induction l as [|y l IH]; [intros []|]. intros Hin Hx. simpl.
  destruct (p y) eqn:Hy; [now eexists|].
  destruct Hin as [->|Hin]; [congruence|].
  destruct (IH Hin Hx) as [i ->]. now eexists.
Qed.

Lemma assign_middle {A : Type} (pre post : list A) (x y : A) :
  assign (length pre) y (pre ++ x :: post) = pre ++ y :: post.
Proof. induction pre as [|z pre IH]; simpl; [reflexivity|now rewrite IH]. Qed.

Lemma nth_error_middle {A : Type} (pre post : list A) (x : A) :
  nth_error (pre ++ x :: post) (length pre) = Some x.
Proof. induction pre as [|z pre IH]; simpl; [reflexivity|exact IH]. Qed.

Lemma splice1_middle {A : Type} (pre post : list A) (x : A) :
  splice1 (length pre) (pre ++ x :: post) = pre ++ post.
Proof.
  unfold splice1. induction pre as [|z pre IH]; [reflexivity|].
  simpl in *. now rewrite IH.
Qed.

Lemma filter_keeps_all {A : Type} (f : A -> bool) (l : list A) :
  (forall x, In x l -> f x = true) -> filter f l = l.
Proof.
  induction l as [|x l IH]; [reflexivity|]. intros H. simpl.
  rewrite (H x (or_introl eq_refl)), IH; [reflexivity|].
  intros y Hy. apply H. now right.
Qed.

Lemma strict_eq_undefined (x : Json.js) :
  strict_eq x None = true <-> x = None.
Proof.
  destruct x as [[| | | | |]|]; simpl; split; intros H;
    try discriminate; reflexivity.
Qed.

(** X1.  updateSection and deleteSection with an id that no section has
    change nothing: the sections stay, and nothing is logged. *)
Theorem unknown_section_is_left_alone
        (sectionId : Json.js) (updates : Obj) (iso : string) (st : State) :
  (forall s, In s (sections st) -> has_id sectionId s = false) ->
  updateSection sectionId updates iso st = st /\
  deleteSection sectionId iso st = st.
Proof.
  intros H. unfold updateSection, deleteSection.
  now rewrite (findIndex_none _ _ H).
Qed.

Lemma unknown_section_is_left_alone_witness :
  updateSection (Some (Json.JString "s9"))
                [("title", Json.JString "Other")] "t" document_two
  = document_two /\
  deleteSection (Some (Json.JString "s9")) "t" document_two = document_two.
Proof.
  apply (unknown_section_is_left_alone (Some (Json.JString "s9"))).
  intros s [<-|[<-|[]]]; reflexivity.
Defined.

(** X2.  undo right after an updateSection that found its section, with
    updates that do not set the id, gives the state of before the
    update back: sections, log and all. *)
Theorem undo_reverts_updateSection
        (sectionId : Json.js) (updates : Obj) (iso : string) (st : State)
        (s : Obj) :
  In s (sections st) ->
  has_id sectionId s = true ->
  get "id" updates = None ->
  undo (updateSection sectionId updates iso st) = st.
Proof.
  intros Hin Hs Hupd.
  destruct (findIndex_exists _ _ _ Hin Hs) as [i Hi].
  destruct (findIndex_some _ _ _ Hi) as (pre & x & post & Hl & Hlen & Hx & Hpre).
  unfold updateSection. rewrite Hi, Hl, <- Hlen, nth_error_middle.
  unfold undo. cbn [changeLog]. rewrite unsnoc_app. cbn [sections].
  rewrite assign_middle.
  set (new := set "updatedAt" (Json.JString iso) (spread x updates)).
  assert (Hnew : has_id sectionId new = true).
  { unfold has_id, new in *.
    rewrite get_set_other by discriminate.
    now rewrite (get_spread_absent _ _ _ Hupd). }
  rewrite (findIndex_found _ pre post new Hpre Hnew), assign_middle.
  destruct st. simpl in *. now subst.
Qed.

Lemma undo_reverts_updateSection_witness :
  undo (updateSection (Some (Json.JString "s2"))
                      [("title", Json.JString "Scope of work")] "t"
                      document_two)
  = document_two.
Proof.
  apply (undo_reverts_updateSection _ _ _ _ section_scope).
  - right. left. reflexivity.
  - reflexivity.
  - reflexivity.
Defined.

(** X3.  undo right after a deleteSection puts the deleted section back
    at the end of the list, not at the place it had; the log is the one
    of before the delete.  The state of before the delete comes back
    when the section was the last one; when a section that differs from
    it came next, the order of the sections is another than before. *)
Theorem undo_of_delete_appends
        (sectionId : Json.js) (iso : string) (st : State) (i : nat) (s : Obj) :
  findIndex (has_id sectionId) (sections st) = Some i ->
  nth_error (sections st) i = Some s ->
  sections (undo (deleteSection sectionId iso st))
  = splice1 i (sections st) ++ [s] /\
  changeLog (undo (deleteSection sectionId iso st)) = changeLog st /\
  (S i = length (sections st) ->
   undo (deleteSection sectionId iso st) = st) /\
  (forall s', nth_error (sections st) (S i) = Some s' -> s' <> s ->
              sections (undo (deleteSection sectionId iso st)) <> sections st).
Proof.
  intros Hi Hn. unfold deleteSection. rewrite Hi, Hn.
  unfold undo. cbn [changeLog]. rewrite unsnoc_app. cbn [sections changeLog].
  split; [reflexivity|]. split; [reflexivity|].
  destruct (findIndex_some _ _ _ Hi) as (pre & x & post & Hl & Hlen & _ & _).
  split.
  - intros Hlast.
    assert (Hpost : post = []).
    { rewrite Hl, length_app in Hlast. simpl in Hlast.
      destruct post; [reflexivity|simpl in Hlast; lia]. }
    subst post. rewrite Hl, <- Hlen in *.
    rewrite nth_error_middle in Hn. injection Hn as ->.
    rewrite splice1_middle, app_nil_r.
    destruct st. simpl in *. now subst.
  - intros s' Hn' Hne. rewrite Hl, <- Hlen in *.
    rewrite nth_error_middle in Hn. injection Hn as ->.
    rewrite splice1_middle.
    replace (S (length pre)) with (length pre + 1) in Hn' by lia.
    rewrite nth_error_app2 in Hn' by lia.
    replace (length pre + 1 - length pre) with 1 in Hn' by lia.
    destruct post as [|y post]; [discriminate|]. injection Hn' as ->.
    rewrite <- app_assoc. intros Heq. apply app_inv_head in Heq.
    injection Heq as Heq _. now apply Hne.
Qed.

Lemma undo_of_delete_appends_witness :
  sections (undo (deleteSection (Some (Json.JString "s1")) "t" document_two))
  = [section_scope; section_intro] /\
  undo (deleteSection (Some (Json.JString "s2")) "t" document_two)
  = document_two /\
  sections (undo (deleteSection (Some (Json.JString "s1")) "t" document_two))
  <> sections document_two.
Proof.
  split; [|split].
  - apply (undo_of_delete_appends (Some (Json.JString "s1")) "t" document_two
                                  0 section_intro); reflexivity.
  - apply (undo_of_delete_appends (Some (Json.JString "s2")) "t" document_two
                                  1 section_scope); reflexivity.
  - apply (proj2 (proj2 (proj2
             (undo_of_delete_appends (Some (Json.JString "s1")) "t"
                document_two 0 section_intro eq_refl eq_refl)))
             section_scope eq_refl).
    discriminate.
Defined.

End SectionFacts.

Section SectionUndo.
Import SOWSections.

(** X4.  undo right after an addSection gives the state of before it
    back when the section brought an id of its own, a string that no
    section of the document had. *)
Theorem undo_reverts_addSection_with_id
        (section : Obj) (x now iso : string) (st : State) :
  get "id" section = Some (Json.JString x) ->
  unique_keys section ->
  (forall s, In s (sections st) ->
             has_id (Some (Json.JString x)) s = false) ->
  undo (addSection section now iso st) = st.
Proof.
  intros Hid Hu Hfresh. unfold addSection, undo. cbn [changeLog].
  rewrite unsnoc_app. cbn [sections]. rewrite Hid, filter_app.
  rewrite filter_keeps_all
    by (intros s Hs; now rewrite (Hfresh s Hs)).
  cbn [filter]. unfold has_id at 1.
  rewrite !get_set_other by discriminate.
  rewrite (get_spread_present _ _ _ _ Hu Hid). cbn [strict_eq].
  rewrite String.eqb_refl. cbn [negb]. rewrite app_nil_r.
  now destruct st.
Qed.

Lemma undo_reverts_addSection_with_id_witness :
  undo (addSection [("id", Json.JString "s3"); ("title", Json.JString "Risks")]
                   "1700000000000" "t" document_two)
  = document_two.
Proof.
  apply (undo_reverts_addSection_with_id _ "s3").
  - reflexivity.
  - repeat constructor; simpl; intuition discriminate.
  - intros s [<-|[<-|[]]]; reflexivity.
Defined.

(** X5.  A section added without an id of its own gets the clock as id,
    but the log entry keeps the id of the argument, which is undefined:
    undo right after the addSection pops the entry and leaves the new
    section in the document.  When every section had an id, the
    sections after the undo are the ones after the add. *)
Theorem undo_keeps_section_added_without_id
        (section : Obj) (now iso : string) (st : State) :
  get "id" section = None ->
  let added := addSection section now iso st in
  exists new,
    sections added = sections st ++ [new] /\
    get "id" new = Some (Json.JString now) /\
    In new (sections (undo added)) /\
    changeLog (undo added) = changeLog st /\
    ((forall s, In s (sections st) -> get "id" s <> None) ->
     sections (undo added) = sections added).
Proof.
  intros Hid added. subst added. unfold addSection.
  set (new := set "updatedAt" (Json.JString iso)
                (set "createdAt" (Json.JString iso)
                   (spread [("id", Json.JString now)] section))).
  assert (Hnew : get "id" new = Some (Json.JString now)).
  { unfold new. rewrite !get_set_other by discriminate.
    now rewrite (get_spread_absent _ _ _ Hid). }
  assert (Hkeep : negb (has_id None new) = true).
  { unfold has_id. now rewrite Hnew. }
  exists new. cbn [sections]. split; [reflexivity|]. split; [exact Hnew|].
  unfold undo. cbn [changeLog]. rewrite unsnoc_app. cbn [sections changeLog].
  rewrite Hid, filter_app. cbn [filter]. rewrite Hkeep.
  split; [apply in_or_app; right; now left|].
  split; [reflexivity|].
  intros Hall. rewrite filter_keeps_all; [reflexivity|].
  intros s Hs. unfold has_id.
  destruct (strict_eq (get "id" s) None) eqn:He; [|reflexivity].
  apply strict_eq_undefined in He. now apply Hall in Hs.
Qed.

Lemma undo_keeps_section_added_without_id_witness :
  let added := addSection section_risks "1700000000000" "t" document_two in
  exists new,
    sections added = sections document_two ++ [new] /\
    get "id" new = Some (Json.JString "1700000000000") /\
    In new (sections (undo added)) /\
    changeLog (undo added) = changeLog document_two /\
    ((forall s, In s (sections document_two) -> get "id" s <> None) ->
     sections (undo added) = sections added).
Proof.
  apply (undo_keeps_section_added_without_id section_risks).
  reflexivity.
Defined.

(** X6.  loadTemplate replaces the sections and keeps the change log.
    An undo after it therefore reverses a change made to the document
    of before: a section deleted there comes back behind the sections
    of the template. *)
Theorem undo_after_loadTemplate_brings_back_deleted_section
        (template : Template) (sectionId : Json.js) (iso : string)
        (st : State) (i : nat) (s : Obj) :
  findIndex (has_id sectionId) (sections st) = Some i ->
  nth_error (sections st) i = Some s ->
  changeLog (loadTemplate template (deleteSection sectionId iso st))
  = changeLog st ++ [DELETE_SECTION sectionId iso s] /\
  sections (undo (loadTemplate template (deleteSection sectionId iso st)))
  = template_sections template ++ [s].
Proof.
  intros Hi Hn. unfold deleteSection. rewrite Hi, Hn.
  split; [reflexivity|].
  unfold undo, loadTemplate. cbn [changeLog]. rewrite unsnoc_app.
  reflexivity.
Qed.

Lemma undo_after_loadTemplate_brings_back_deleted_section_witness :
  sections (undo (loadTemplate template_blank
                    (deleteSection (Some (Json.JString "s1")) "t"
                                   document_two)))
  = [section_risks; section_intro].
Proof.
  apply (proj2 (undo_after_loadTemplate_brings_back_deleted_section
                  template_blank (Some (Json.JString "s1")) "t" document_two
                  0 section_intro eq_refl eq_refl)).
Defined.

End SectionUndo.

(** ** The chat and suggestion slices of the store *)

Lemma dispatch_appends (a : StoreAction) (s : SOWStore.State) :
  exists msgs added,
    SOWStore.chatMessages (dispatch a s) = SOWStore.chatMessages s ++ msgs /\
    SOWStore.suggestionHistory (dispatch a s)
    = SOWStore.suggestionHistory s ++ added /\
    length added + pending_count (dispatch a s)
    <= registrations [a] + pending_count s.
Proof.
  assert (Hnil : forall s' : SOWStore.State,
             SOWStore.chatMessages s' = SOWStore.chatMessages s ->
             SOWStore.suggestionHistory s' = SOWStore.suggestionHistory s ->
             pending_count s' <= registrations [a] + pending_count s ->
             exists msgs added,
               SOWStore.chatMessages s' = SOWStore.chatMessages s ++ msgs /\
               SOWStore.suggestionHistory s'
               = SOWStore.suggestionHistory s ++ added /\
               length added + pending_count s'
               <= registrations [a] + pending_count s).
  { intros s' Hc Hh Hp. exists [], []. rewrite !app_nil_r.
    repeat split; assumption. }
  destruct a as [m now|b|[sg|]|now|now|]; cbn [dispatch].
  - eexists. exists []. split; [reflexivity|].
    split; [now rewrite app_nil_r|].
    unfold pending_count. simpl.
    destruct (SOWStore.pendingSuggestion s); lia.
  - apply Hnil; try reflexivity; unfold pending_count; simpl;
      destruct (SOWStore.pendingSuggestion s); lia.
  - apply Hnil; try reflexivity; unfold pending_count; simpl;
      destruct (SOWStore.pendingSuggestion s); lia.
  - apply Hnil; try reflexivity; unfold pending_count; simpl;
      destruct (SOWStore.pendingSuggestion s); lia.
  - unfold SOWStore.acceptSuggestion.
    destruct (SOWStore.pendingSuggestion s) as [p|] eqn:Hp.
    + exists []. eexists. split; [now rewrite app_nil_r|].
      split; [reflexivity|]. unfold pending_count. simpl. rewrite Hp. lia.
    + apply (Hnil s); try reflexivity; lia.
  - unfold SOWStore.rejectSuggestion.
    destruct (SOWStore.pendingSuggestion s) as [p|] eqn:Hp.
    + exists []. eexists. split; [now rewrite app_nil_r|].
      split; [reflexivity|]. unfold pending_count. simpl. rewrite Hp. lia.
    + apply (Hnil s); try reflexivity; lia.
  - apply Hnil; try reflexivity; unfold pending_count; simpl;
      destruct (SOWStore.pendingSuggestion s); lia.
Qed.

Lemma registrations_cons (a : StoreAction) (rest : list StoreAction) :
  registrations (a :: rest) = registrations [a] + registrations rest.
Proof. destruct a as [| |[|]| | |]; reflexivity. Qed.

(** X7.  No run of store actions removes, reorders or rewrites a chat
    message or an entry of suggestionHistory: both lists only grow at
    their end.  The history grows by at most one entry for each
    suggestion that was registered as pending (counting the one pending
    at the start). *)
Theorem store_lists_only_grow (actions : list StoreAction) (s : SOWStore.State) :
  exists msgs added,
    SOWStore.chatMessages (run_store actions s)
    = SOWStore.chatMessages s ++ msgs /\
    SOWStore.suggestionHistory (run_store actions s)
    = SOWStore.suggestionHistory s ++ added /\
    length added + pending_count (run_store actions s)
    <= registrations actions + pending_count s.
Proof.
  revert s. induction actions as [|a rest IH]; intros s.
  - exists [], []. rewrite !app_nil_r. repeat split. simpl. lia.
  - destruct (dispatch_appends a s) as (m1 & a1 & Hm1 & Ha1 & Hb1).
    destruct (IH (dispatch a s)) as (m2 & a2 & Hm2 & Ha2 & Hb2).
    exists (m1 ++ m2), (a1 ++ a2).
    change (run_store (a :: rest) s) with (run_store rest (dispatch a s)).
    rewrite Hm2, Ha2, Hm1, Ha1, <- !app_assoc.
    split; [reflexivity|]. split; [reflexivity|].
    rewrite length_app, registrations_cons. lia.
Qed.

(** ** The chat panel: sending and the reply *)

Lemma insertText_of_none (t : Json.js) (e : Slate.Editor) :
  Slate.insertText_of t e = None -> Slate.has_length t = true.
Proof.
  unfold Slate.insertText_of.
  destruct (Slate.selection e); [|discriminate].
  destruct t as [[| | | |l|ms]|]; try discriminate;
    now destruct (Slate.has_length _).
Qed.

Lemma on_ref_none (r : option (Completion Slate.Editor)) :
  EditorContext.on_ref r = None -> r = None.
Proof. now destruct r as [[e|e]|]. Qed.

(** applySuggestion is outside the model only with an editor attached
    and a content that has a length and is no string. *)
Lemma applySuggestion_none (sg : Suggestion) (ref : EditorContext.EditorRef) :
  EditorContext.applySuggestion (Some sg) ref = None ->
  ref <> None /\ Slate.has_length (content sg) = true.
Proof.
  unfold EditorContext.applySuggestion, EditorContext.replaceSelection,
    EditorContext.insertText, EditorContext.insertAtEnd.
  destruct ref as [e|]; [|discriminate]. intros H.
  split; [discriminate|].
  destruct (Json.strict_eq_string (type sg) "replace");
    [destruct (range sg);
     apply on_ref_none, insertText_of_none in H; exact H|].
  destruct (Json.strict_eq_string (type sg) "insert");
    [destruct (position sg);
     apply on_ref_none, insertText_of_none in H; exact H|].
  destruct (Json.strict_eq_string (type sg) "append");
    [|apply on_ref_none, insertText_of_none in H; exact H].
  now destruct (Json.js_to_string (content sg)).
Qed.

(** X8.  Whatever the reply is (text, a proposal of any content but one
    the model does not cover, a failure of the service, or a proposal
    that throws while it is applied), handleSendMessage ends by storing
    exactly one assistant message behind the messages there were and by
    clearing the composing flag; the chat input and the suggestion state
    of the store stay as they are.  After a failure of the service the
    message is the apology, it carries no suggestion, and the editor is
    untouched.  The model gives no result only for a proposal whose
    content is an array with elements or an object with a member
    length, applied to an attached editor. *)
Theorem every_reply_stores_one_assistant_message
        (request : Request) (reply : Reply) (now now' : nat) (w : World) :
  match ChatPanel.handleReply request reply now now' w with
  | Some w' =>
      (exists m,
          SOWStore.chatMessages (store w')
          = SOWStore.chatMessages (store w) ++ [m] /\
          role m = assistant /\
          msg_id m = now' /\
          (reply = Failed ->
           msg_content m = text ChatPanel.apology /\
           msg_suggestion m = None /\
           editorRef w' = editorRef w)) /\
      SOWStore.isClaudeTyping (store w') = false /\
      inputValue w' = inputValue w /\
      inFlight w' = tl (inFlight w) /\
      SOWStore.pendingSuggestion (store w')
      = SOWStore.pendingSuggestion (store w) /\
      SOWStore.suggestionHistory (store w')
      = SOWStore.suggestionHistory (store w)
  | None =>
      exists response payload,
        reply = Resolved response /\
        Json.parse response = Some payload /\
        ChatPanel.is_suggestion payload = true /\
        Slate.has_length (Json.get payload "content") = true /\
        editorRef w <> None
  end.
Proof.
  destruct (ChatPanel.handleReply request reply now now' w) as [w'|] eqn:H.
  - destruct reply as [response|].
    + destruct (handleReply_store _ _ _ _ _ _ H) as (m & Hs & Hf & Hi & Hm).
      rewrite Hs, Hf, Hi.
      cbn [SOWStore.setClaudeTyping SOWStore.addChatMessage
             SOWStore.chatMessages SOWStore.isClaudeTyping
             SOWStore.pendingSuggestion SOWStore.suggestionHistory].
      split; [|repeat split].
      eexists. split; [reflexivity|]. cbn [role msg_id].
      split; [destruct Hm as [[c ->]|(p & sg & ->)]; reflexivity|].
      split; [reflexivity|discriminate].
    + cbn in H. injection H as <-. cbn. split; [|repeat split].
      eexists. split; [reflexivity|]. repeat split.
  - unfold ChatPanel.handleReply in H.
    destruct reply as [response|]; [|discriminate].
    destruct (Json.parse response) as [payload|] eqn:Hp; [|discriminate].
    destruct (ChatPanel.is_suggestion payload) eqn:Hs; [|discriminate].
    destruct (EditorContext.applySuggestion _ _) as [[ref|ref]|] eqn:Ha;
      try discriminate.
    destruct (applySuggestion_none _ _ Ha) as [Hr Hl].
    exists response, payload.
    split; [reflexivity|]. split; [exact Hp|]. split; [exact Hs|].
    split; [exact Hl|exact Hr].
Qed.

Lemma every_reply_stores_one_assistant_message_witness :
  exists w' m,
    ChatPanel.handleReply request_hi Failed 1 2 world_ab = Some w' /\
    SOWStore.chatMessages (store w')
    = SOWStore.chatMessages (store world_ab) ++ [m] /\
    msg_content m = text ChatPanel.apology /\
    msg_suggestion m = None /\
    editorRef w' = editorRef world_ab.
Proof.
  pose proof (every_reply_stores_one_assistant_message
                request_hi Failed 1 2 world_ab) as H.
  cbn [ChatPanel.handleReply] in H.
  destruct H as [(m & Hm & _ & _ & Hf) _].
  destruct (Hf eq_refl) as (Hc & Hs & He).
  do 2 eexists. split; [reflexivity|]. split; [exact Hm|].
  now repeat split.
Defined.

(** X12.  A reply that is not classified as a proposal, be it no JSON
    at all or JSON of another shape, is shown as it came: the assistant
    message holds the raw reply and no suggestion, and the editor is
    untouched. *)
Theorem other_reply_is_shown_verbatim
        (request : Request) (response : string) (now now' : nat) (w : World) :
  classify response = Conversational response ->
  exists w',
    ChatPanel.handleReply request (Resolved response) now now' w = Some w' /\
    editorRef w' = editorRef w /\
    editorValue w' = editorValue w /\
    SOWStore.chatMessages (store w')
    = SOWStore.chatMessages (store w)
        ++ [mkChatMessage now' assistant (text response) None None false now'].
Proof.
  intros Hc. unfold classify in Hc. unfold ChatPanel.handleReply.
  destruct (Json.parse response) as [v|].
  - destruct (ChatPanel.is_suggestion v); [discriminate|].
    eexists. split; [reflexivity|]. repeat split.
  - eexists. split; [reflexivity|]. repeat split.
Qed.

Lemma other_reply_is_shown_verbatim_witness :
  exists w',
    ChatPanel.handleReply request_hi (Resolved payload_note) 1 2 world_ab
    = Some w' /\
    editorRef w' = editorRef world_ab /\
    editorValue w' = editorValue world_ab /\
    SOWStore.chatMessages (store w')
    = SOWStore.chatMessages (store world_ab)
        ++ [mkChatMessage 2 assistant (text payload_note) None None false 2].
Proof.
  apply (other_reply_is_shown_verbatim request_hi payload_note 1 2 world_ab).
  vm_compute. reflexivity.
Defined.

Lemma parse_capital_I (rest : string) :
  Json.parse (String "I" rest) = None.
Proof. reflexivity. Qed.

(** X11.  Without AWS credentials sendMessage answers with its
    placeholder text, which is no JSON whatever the user wrote: the
    reply is shown as conversational text and the document is never
    touched. *)
Theorem placeholder_reply_never_edits
        (model : Reply) (userMessage : string) (request : Request)
        (now now' : nat) (w : World) :
  classify (BedrockService.placeholder userMessage)
  = Conversational (BedrockService.placeholder userMessage) /\
  exists w',
    ChatPanel.handleReply request
      (BedrockService.sendMessage false model userMessage) now now' w
    = Some w' /\
    editorRef w' = editorRef w /\
    SOWStore.chatMessages (store w')
    = SOWStore.chatMessages (store w)
        ++ [mkChatMessage now' assistant
                          (text (BedrockService.placeholder userMessage))
                          None None false now'].
Proof.
  assert (Hp : Json.parse (BedrockService.placeholder userMessage) = None)
    by apply parse_capital_I.
  split.
  - unfold classify. now rewrite Hp.
  - unfold BedrockService.sendMessage, ChatPanel.handleReply. cbn [negb].
    rewrite Hp. eexists. split; [reflexivity|]. split; reflexivity.
Qed.

Section StripFacts.
Variable one : ascii -> bool.
Variable two : ascii -> ascii -> bool.
Variable three : ascii -> ascii -> ascii -> bool.

Lemma strip_cases (s : list ascii) :
  (strip one two three s = s /\ stuck one two three s) \/
  (exists a r, s = a :: r /\ strip one two three s = strip one two three r) \/
  (exists a b r, s = a :: b :: r /\
                 strip one two three s = strip one two three r) \/
  (exists a b c r, s = a :: b :: c :: r /\
                   strip one two three s = strip one two three r).
Proof.
  destruct s as [|a r1]; [left; now split|]. simpl.
  destruct (one a) eqn:H1; [right; left; now exists a, r1|].
  destruct r1 as [|b r2]; [left; now repeat split|].
  destruct (two a b) eqn:H2; [right; right; left; now exists a, b, r2|].
  destruct r2 as [|c r3]; [left; now repeat split|].
  destruct (three a b c) eqn:H3; [right; right; right; now exists a, b, c, r3|].
  left. now repeat split.
Qed.

Lemma strip_stuck_suffix (n : nat) (s : list ascii) :
  length s <= n ->
  stuck one two three (strip one two three s) /\ exists p, s = p ++ strip one two three s.
Proof.
  revert s. induction n as [|n IH]; intros s Hn.
  - destruct s; [|simpl in Hn; lia]. split; [exact I|now exists []].
  - destruct (strip_cases s)
      as [[Hs Hk]|[(a & r & -> & Hs)|[(a & b & r & -> & Hs)
                                     |(a & b & c & r & -> & Hs)]]];
      rewrite Hs.
    + split; [exact Hk|now exists []].
    + destruct (IH r) as [Hk [p Hp]]; [simpl in Hn; lia|].
      split; [exact Hk|]. exists (a :: p). simpl. now rewrite <- Hp.
    + destruct (IH r) as [Hk [p Hp]]; [simpl in Hn; lia|].
      split; [exact Hk|]. exists (a :: b :: p). simpl. now rewrite <- Hp.
    + destruct (IH r) as [Hk [p Hp]]; [simpl in Hn; lia|].
      split; [exact Hk|]. exists (a :: b :: c :: p). simpl. now rewrite <- Hp.
Qed.

End StripFacts.

Lemma trim_start_begins_well (l : list ascii) : begins_well (trim_start l).
Proof.
  destruct (strip_stuck_suffix is_space is_space2 is_space3 _ l (le_n _))
    as [Hk _].
  fold (trim_start l) in Hk. intros w r Hw Hwh. rewrite Hw in Hk.
  destruct Hwh as [|a w' Ha _|a b w' Hab _|a b c w' Habc _];
    [reflexivity|exfalso..]; simpl in Hk.
  - destruct Hk as [Hk _]. congruence.
  - destruct Hk as [_ [Hk _]]. congruence.
  - destruct Hk as [_ [_ Hk]]. congruence.
Qed.

Lemma trim_start_suffix (l : list ascii) :
  exists p, l = p ++ trim_start l.
Proof.
  exact (proj2 (strip_stuck_suffix is_space is_space2 is_space3 _ l (le_n _))).
Qed.

(** A run of white space, read from its end. *)
Lemma white_last (w : list ascii) :
  white w ->
  w = [] \/
  (exists u a, w = u ++ [a] /\ is_space a = true) \/
  (exists u a b, w = u ++ [a; b] /\ is_space2 a b = true) \/
  (exists u a b c, w = u ++ [a; b; c] /\ is_space3 a b c = true).
Proof.
  induction 1 as [|a r Ha _ IH|a b r Hab _ IH|a b c r Habc _ IH];
    [now left|right..].
  - destruct IH as [->|[(u & x & -> & Hx)|[(u & x & y & -> & Hx)
                                           |(u & x & y & z & -> & Hx)]]].
    + left. now exists [], a.
    + left. now exists (a :: u), x.
    + right; left. now exists (a :: u), x, y.
    + right; right. now exists (a :: u), x, y, z.
  - destruct IH as [->|[(u & x & -> & Hx)|[(u & x & y & -> & Hx)
                                           |(u & x & y & z & -> & Hx)]]].
    + right; left. now exists [], a, b.
    + left. now exists (a :: b :: u), x.
    + right; left. now exists (a :: b :: u), x, y.
    + right; right. now exists (a :: b :: u), x, y, z.
  - destruct IH as [->|[(u & x & -> & Hx)|[(u & x & y & -> & Hx)
                                           |(u & x & y & z & -> & Hx)]]].
    + right; right. now exists [], a, b, c.
    + left. now exists (a :: b :: c :: u), x.
    + right; left. now exists (a :: b :: c :: u), x, y.
    + right; right. now exists (a :: b :: c :: u), x, y, z.
Qed.

Lemma trim_is_trimmed (s : string) : trimmed (trim s).
Proof.
  unfold trimmed, trim. rewrite list_ascii_of_string_of_list_ascii.
  set (x := trim_start (list_ascii_of_string s)).
  destruct (strip_stuck_suffix is_space (fun b a => is_space2 a b)
              (fun c b a => is_space3 a b c) _ (rev x) (le_n _))
    as [Hk [p Hp]].
  fold (trim_end_reversed (rev x)) in Hk, Hp.
  set (z := trim_end_reversed (rev x)) in *.
  split.
  - intros w r Hw Hwh.
    apply (trim_start_begins_well (list_ascii_of_string s) w (r ++ rev p));
      [|exact Hwh].
    fold x. rewrite app_assoc, <- Hw, <- rev_app_distr, <- Hp.
    now rewrite rev_involutive.
  - intros q w Hw Hwh.
    assert (Hz : z = rev w ++ rev q).
    { rewrite <- rev_app_distr, <- Hw. now rewrite rev_involutive. }
    destruct (white_last w Hwh)
      as [->|[(u & a & -> & Ha)|[(u & a & b & -> & Ha)
                                 |(u & a & b & c & -> & Ha)]]];
      [reflexivity|exfalso..];
      rewrite rev_app_distr in Hz; simpl in Hz; rewrite Hz in Hk;
      simpl in Hk.
    + destruct Hk as [Hk _]. congruence.
    + destruct Hk as [_ [Hk _]]. congruence.
    + destruct Hk as [_ [_ Hk]]. congruence.
Qed.

(** X9.  A send that passes the guard stores the chat input without its
    surrounding white space as a user message, hands the same text to
    the service together with the document and the selected text,
    empties the input and sets the composing flag.  The text is not
    empty and neither begins nor ends with white space; the editor is
    not touched. *)
Theorem accepted_send_uses_trimmed_text (now : nat) (w : World) :
  SOWStore.isClaudeTyping (store w) = false ->
  trim (inputValue w) <> "" ->
  let w' := ChatPanel.handleSendMessage now w in
  SOWStore.chatMessages (store w')
  = SOWStore.chatMessages (store w)
      ++ [mkChatMessage now user (text (trim (inputValue w))) None None false
                        now] /\
  inFlight w'
  = inFlight w
      ++ [mkRequest (trim (inputValue w)) (editorValue w)
                    (EditorContext.getSelectedText (editorRef w))
                    (0 <? length (EditorContext.getSelectedText (editorRef w)))] /\
  inputValue w' = "" /\
  SOWStore.isClaudeTyping (store w') = true /\
  editorRef w' = editorRef w /\
  trimmed (trim (inputValue w)).
Proof.
  intros Ht Hne w'. subst w'. unfold ChatPanel.handleSendMessage.
  rewrite Ht, (proj2 (String.eqb_neq _ _) Hne). simpl.
  repeat split; apply trim_is_trimmed.
Qed.

Lemma accepted_send_uses_trimmed_text_witness :
  let w' := ChatPanel.handleSendMessage 3 world_draft in
  SOWStore.chatMessages (store w')
  = [mkChatMessage 3 user (text "make it shorter") None None false 3] /\
  inFlight w'
  = [mkRequest "make it shorter" (Slate.doc editor_old_text)
               (list_ascii_of_string "old text") true] /\
  inputValue w' = "" /\
  SOWStore.isClaudeTyping (store w') = true.
Proof.
  destruct (accepted_send_uses_trimmed_text 3 world_draft)
    as (Hm & Hr & Hi & Ht & _).
  - reflexivity.
  - vm_compute. discriminate.
  - repeat split; assumption.
Defined.

(** X10.  For an editor whose selection lies in the document, the
    request tells the service that there is a selection exactly when
    the selection is not collapsed, and the selected text it sends is
    the text between the two ends of the selection. *)
Theorem request_reports_the_selection
        (now : nat) (w : World) (e : Slate.Editor) :
  editorRef w = Some e ->
  Slate.wf e ->
  SOWStore.isClaudeTyping (store w) = false ->
  trim (inputValue w) <> "" ->
  exists r,
    inFlight (ChatPanel.handleSendMessage now w) = inFlight w ++ [r] /\
    hasSelection r = Slate.has_selection e /\
    selectedText r
    = match Slate.selection e with
      | Some rg =>
          firstn (Slate.range_end rg - Slate.range_start rg)
                 (skipn (Slate.range_start rg) (Slate.doc e))
      | None => []
      end.
Proof.
  intros He Hwf Ht Hne. unfold ChatPanel.handleSendMessage.
  rewrite Ht, (proj2 (String.eqb_neq _ _) Hne), He. cbn [orb inFlight].
  eexists. split; [reflexivity|]. cbn [hasSelection selectedText].
  unfold EditorContext.getSelectedText, Slate.has_selection, Slate.wf in *.
  destruct (Slate.selection e) as [rg|]; [|split; reflexivity].
  split; [|reflexivity].
  assert (Hend : Slate.range_end rg <= length (Slate.doc e))
    by (unfold Slate.range_end; lia).
  pose proof (string_length rg e Hend) as Hlen.
  unfold Slate.is_collapsed, Slate.range_start, Slate.range_end in *.
  destruct (Nat.eqb_spec (Slate.anchor rg) (Slate.focus rg)) as [Heq|Hneq];
    cbn [negb].
  - apply Nat.ltb_ge. lia.
  - apply Nat.ltb_lt. lia.
Qed.

Lemma request_reports_the_selection_witness :
  exists r,
    inFlight (ChatPanel.handleSendMessage 3 world_draft) = [r] /\
    hasSelection r = true /\
    selectedText r = list_ascii_of_string "old text".
Proof.
  destruct (request_reports_the_selection 3 world_draft editor_old_text)
    as (r & Hr & Hs & Ht).
  - reflexivity.
  - vm_compute. lia.
  - reflexivity.
  - vm_compute. discriminate.
  - exists r. split; [exact Hr|]. split; [exact Hs|exact Ht].
Defined.

(** ** Suggestions that say where they go *)

Lemma select_then_insert_doc (r : Slate.Range) (c : string) (e : Slate.Editor) :
  Slate.range_end r <= length (Slate.doc e) ->
  Slate.doc (Slate.insertText (list_ascii_of_string c) (Slate.select r e))
  = firstn (Slate.range_start r) (Slate.doc e)
      ++ list_ascii_of_string c ++ skipn (Slate.range_end r) (Slate.doc e).
Proof.
  intros H.
  rewrite (insertText_doc _ (Slate.select r e) r).
  - now rewrite select_doc.
  - unfold Slate.wf. rewrite select_selection, select_doc.
    unfold Slate.range_end in H. lia.
  - apply select_selection.
Qed.

(** X13.  A replace suggestion that carries a range replaces the text
    of that range, and an insert suggestion that carries a position
    inserts there, wherever the selection of the user is. *)
Theorem placed_suggestion_ignores_selection :
  (forall (sg : Suggestion) (c : string) (e : Slate.Editor) (r : Slate.Range),
      type sg = text "replace" ->
      range sg = Some r ->
      content sg = text c ->
      Slate.range_end r <= length (Slate.doc e) ->
      exists e',
        EditorContext.applySuggestion (Some sg) (Some e)
        = Some (Normal (Some e')) /\
        Slate.doc e'
        = firstn (Slate.range_start r) (Slate.doc e)
            ++ list_ascii_of_string c
            ++ skipn (Slate.range_end r) (Slate.doc e))
  /\
  (forall (sg : Suggestion) (c : string) (e : Slate.Editor) (p : Slate.Point),
      type sg = text "insert" ->
      position sg = Some p ->
      content sg = text c ->
      p <= length (Slate.doc e) ->
      exists e',
        EditorContext.applySuggestion (Some sg) (Some e)
        = Some (Normal (Some e')) /\
        Slate.doc e'
        = firstn p (Slate.doc e) ++ list_ascii_of_string c
            ++ skipn p (Slate.doc e)).
Proof.
  split.
  - intros sg c e r Ht Hr Hc Hle. eexists. split.
    + unfold EditorContext.applySuggestion. rewrite Hc, Ht, Hr.
      change (Json.strict_eq_string (text "replace") "replace") with true.
      cbv iota. rewrite insertText_of_text. reflexivity.
    + now apply select_then_insert_doc.
  - intros sg c e p Ht Hp Hc Hle. eexists. split.
    + unfold EditorContext.applySuggestion. rewrite Hc, Ht, Hp.
      change (Json.strict_eq_string (text "insert") "replace") with false.
      change (Json.strict_eq_string (text "insert") "insert") with true.
      cbv iota. rewrite insertText_of_text. reflexivity.
    + rewrite select_then_insert_doc.
      * unfold Slate.range_start, Slate.range_end, Slate.collapsed_at. simpl.
        now rewrite Nat.min_id, Nat.max_id.
      * unfold Slate.range_end, Slate.collapsed_at. simpl.
        now rewrite Nat.max_id.
Qed.

Lemma placed_suggestion_ignores_selection_witness :
  (exists e',
      EditorContext.applySuggestion (Some suggestion_ranged)
                                    (Some editor_cursor_at_start)
      = Some (Normal (Some e')) /\
      Slate.doc e' = list_ascii_of_string "the new text here") /\
  (exists e',
      EditorContext.applySuggestion (Some suggestion_positioned)
                                    (Some editor_old_text)
      = Some (Normal (Some e')) /\
      Slate.doc e' = list_ascii_of_string "the very old text here").
Proof.
  split.
  - apply (proj1 placed_suggestion_ignores_selection suggestion_ranged
                 "new text" editor_cursor_at_start (Slate.mkRange 4 12));
      try reflexivity.
    vm_compute. lia.
  - apply (proj2 placed_suggestion_ignores_selection suggestion_positioned
                 "very " editor_old_text 4);
      try reflexivity.
    vm_compute. lia.
Defined.

(** ** SuggestionPanel *)

(** X14.  Each button of the panel resolves the pending suggestion once:
    the store has no pending suggestion afterwards and its history has
    one more entry, for that suggestion, with the status of the button.
    Rejecting a suggestion that was not applied leaves the document as
    it is, whatever the undo history holds.  The accept returns for
    every suggestion whose content is text. *)
Theorem panel_resolution_is_recorded (now : nat) (w : World) (p : Suggestion) :
  SOWStore.pendingSuggestion (store w) = Some p ->
  (forall w',
      SuggestionPanel.handleAccept now w = Some (Normal w') ->
      SOWStore.suggestionHistory (store w')
      = SOWStore.suggestionHistory (store w) ++ [mkHistoryEntry p accepted now] /\
      SOWStore.pendingSuggestion (store w') = None) /\
  (forall c, content p = text c ->
             exists w', SuggestionPanel.handleAccept now w = Some (Normal w')) /\
  SOWStore.suggestionHistory (store (SuggestionPanel.handleReject now w))
  = SOWStore.suggestionHistory (store w) ++ [mkHistoryEntry p rejected now] /\
  SOWStore.pendingSuggestion (store (SuggestionPanel.handleReject now w)) = None /\
  (applied p = false ->
   same_editor (editorRef w) (editorRef (SuggestionPanel.handleReject now w))).
Proof.
  intros Hp. split; [|split; [|split; [|split]]].
  - intros w' H. unfold SuggestionPanel.handleAccept in H. rewrite Hp in H.
    destruct (EditorContext.applySuggestion _ _) as [[ref|ref]|];
      try discriminate.
    injection H as <-. rewrite settle_store. simpl.
    unfold SOWStore.acceptSuggestion. rewrite Hp. split; reflexivity.
  - intros c Hc. unfold SuggestionPanel.handleAccept. rewrite Hp.
    destruct (applySuggestion_text p c (editorRef w) Hc) as [ref ->].
    now eexists.
  - unfold SuggestionPanel.handleReject. rewrite Hp, settle_store.
    destruct (applied p); simpl; unfold SOWStore.rejectSuggestion;
      now rewrite Hp.
  - unfold SuggestionPanel.handleReject. rewrite Hp, settle_store.
    destruct (applied p); simpl; unfold SOWStore.rejectSuggestion;
      now rewrite Hp.
  - intros Ha. unfold SuggestionPanel.handleReject. rewrite Hp, Ha.
    rewrite settle_editorRef. simpl. apply same_editor_flush.
Qed.

Lemma panel_resolution_is_recorded_witness :
  SOWStore.suggestionHistory
    (store (SuggestionPanel.handleReject 6 world_ready))
  = [mkHistoryEntry suggestion_ready rejected 6] /\
  SOWStore.pendingSuggestion (store (SuggestionPanel.handleReject 6 world_ready))
  = None /\
  same_editor (editorRef world_ready)
              (editorRef (SuggestionPanel.handleReject 6 world_ready)).
Proof.
  destruct (panel_resolution_is_recorded 6 world_ready suggestion_ready eq_refl)
    as (_ & _ & Hh & Hp & He).
  split; [exact Hh|]. split; [exact Hp|]. apply He. reflexivity.
Defined.

(** ** The inline controls over a selection *)



(** X15.  The Revise and Ask buttons of the inline controls put a user
    message about the selected text into the chat when there is a
    selected text, and nothing when there is none; either way they hide
    the controls.  They send no request and do not set the composing
    flag, so no reply will follow the message; document and suggestion
    state stay as they are.  Accept and Reject of the inline controls
    only hide them. *)
Theorem inline_controls_post_without_sending
        (Position : Type) (now : nat) (w : World)
        (c : InlineControls.State Position) :
  let revise := InlineControls.handleRevise Position now w c in
  let ask := InlineControls.handleAskClaude Position now w c in
  (InlineControls.selected w = "" -> fst revise = w /\ fst ask = w) /\
  (InlineControls.selected w <> "" ->
   SOWStore.chatMessages (store (fst revise))
   = SOWStore.chatMessages (store w)
       ++ [mkChatMessage now user
             (text ("Please help me revise this text: "
                      +++ quoted (InlineControls.selected w)))
             None None false now] /\
   SOWStore.chatMessages (store (fst ask))
   = SOWStore.chatMessages (store w)
       ++ [mkChatMessage now user
             (text ("I need help with this section: "
                      +++ quoted (InlineControls.selected w)
                      +++ ". Can you provide suggestions for improvement?"))
             None None false now]) /\
  (forall r, r = revise \/ r = ask ->
     inFlight (fst r) = inFlight w /\
     SOWStore.isClaudeTyping (store (fst r)) = SOWStore.isClaudeTyping (store w) /\
     editorRef (fst r) = editorRef w /\
     SOWStore.pendingSuggestion (store (fst r))
     = SOWStore.pendingSuggestion (store w) /\
     SOWStore.suggestionHistory (store (fst r))
     = SOWStore.suggestionHistory (store w) /\
     InlineControls.visible Position (snd r) = false) /\
  InlineControls.handleAccept Position w c
  = (w, InlineControls.hideInlineControls Position c) /\
  InlineControls.handleReject Position w c
  = (w, InlineControls.hideInlineControls Position c).
Proof.
  intros revise ask. subst revise ask.
  unfold InlineControls.handleRevise, InlineControls.handleAskClaude.
  cbn [fst snd].
  destruct (String.eqb_spec (InlineControls.selected w) "") as [He|Hne].
  - split; [now split|]. split; [congruence|].
    split; [|split; reflexivity].
    intros r [->| ->]; repeat split.
  - split; [congruence|]. split; [intros _; split; reflexivity|].
    split; [|split; reflexivity].
    intros r [->| ->]; repeat split.
Qed.

Lemma inline_controls_post_without_sending_witness :
  SOWStore.chatMessages
    (store (fst (InlineControls.handleRevise
                   nat 4 world_old_text
                   (InlineControls.mkState nat true 9 None))))
  = [mkChatMessage 4 user
       (text ("Please help me revise this text: " +++ quoted "old text"))
       None None false 4] /\
  fst (InlineControls.handleRevise nat 4 world_ab
         (InlineControls.mkState nat true 9 None))
  = world_ab.
Proof.
  split.
  - apply (proj1 (proj2 (inline_controls_post_without_sending
                           nat 4 world_old_text
                           (InlineControls.mkState nat true 9 None)))).
    vm_compute. discriminate.
  - apply (proj1 (inline_controls_post_without_sending
                   nat 4 world_ab (InlineControls.mkState nat true 9 None))).
    reflexivity.
Defined.

(** ** The buttons under a message *)

Lemma message_ok_offers_one_set (m : ChatMessage) :
  message_ok m -> offers_one_set m.
Proof.
  unfold message_ok, offers_one_set, shows_suggestion_actions,
    shows_message_actions.
  intros [Hu Hs]. destruct (role m).
  - rewrite (Hu eq_refl). now split.
  - destruct (hasSuggestion m); simpl; [|reflexivity].
    destruct (msg_suggestion m); [reflexivity|].
    now destruct (Hs eq_refl).
Qed.

Lemma message_ok_added (message : SOWStore.MessageInput) (now : nat)
      (st : SOWStore.State) :
  Forall message_ok (SOWStore.chatMessages st) ->
  (SOWStore.in_role message = user -> SOWStore.in_hasSuggestion message = false) ->
  (SOWStore.in_hasSuggestion message = true ->
   SOWStore.in_suggestion message <> None) ->
  Forall message_ok
         (SOWStore.chatMessages (SOWStore.addChatMessage message now st)).
Proof.
  intros IH Hu Hs. simpl. apply Forall_app. split; [exact IH|].
  repeat constructor; simpl; assumption.
Qed.

Lemma messages_ok_invariant (w : World) :
  Reachable w -> Forall message_ok (SOWStore.chatMessages (store w)).
Proof.
  induction 1 as [ | w e _ IH | w s _ IH | w t _ IH | w r _ IH | w _ IH
                   | w now _ IH | w request rest reply now now' w' _ IH Hq Hr
                   | w request rest response payload now now' message e
                       _ IH Hq Hr Hp Hm
                   | w now st _ IH | w now st _ IH
                   | w m action c _ IH Hin Hs Ha Hc
                   | w now c _ IH Hc | w now _ IH
                   | w now c _ IH | w now c _ IH ].
  - constructor.
  - exact IH.
  - exact IH.
  - now rewrite settle_store.
  - now rewrite settle_store.
  - now rewrite settle_store.
  - unfold ChatPanel.handleSendMessage.
    destruct (String.eqb (trim (inputValue w)) ""
              || SOWStore.isClaudeTyping (store w)); [exact IH|].
    cbn [store SOWStore.setClaudeTyping SOWStore.chatMessages].
    apply message_ok_added; [exact IH|reflexivity|discriminate].
  - destruct (handleReply_store _ _ _ _ _ _ Hr) as (m & -> & _ & _ & Hm).
    cbn [SOWStore.setClaudeTyping SOWStore.chatMessages].
    destruct Hm as [[c ->]|(p & sg & ->)];
      (apply message_ok_added; [exact IH|discriminate|discriminate]).
  - cbn [with_editor store ChatPanel.finish SOWStore.setClaudeTyping
           SOWStore.chatMessages].
    destruct Hm as [->| ->];
      (apply message_ok_added; [exact IH|discriminate|discriminate]).
  - destruct st; simpl; try exact IH.
    unfold SOWStore.acceptSuggestion.
    now destruct (SOWStore.pendingSuggestion (store w)).
  - destruct st; simpl; try exact IH.
    rewrite settle_store. simpl. unfold SOWStore.rejectSuggestion.
    now destruct (SOWStore.pendingSuggestion (store w)).
  - now rewrite settle_store.
  - destruct (panel_accept_store _ _ _ Hc) as (-> & _). exact IH.
  - destruct (panel_reject_store now w) as (-> & _). exact IH.
  - unfold InlineControls.handleRevise. cbn [fst].
    destruct (String.eqb _ ""); [exact IH|].
    cbn [with_store store].
    apply message_ok_added; [exact IH|reflexivity|discriminate].
  - unfold InlineControls.handleAskClaude. cbn [fst].
    destruct (String.eqb _ ""); [exact IH|].
    cbn [with_store store].
    apply message_ok_added; [exact IH|reflexivity|discriminate].
Qed.

(** X17.  In every session each message of the chat offers what its
    kind calls for: a user message no buttons, an assistant message
    either the accept and reject of an applied suggestion or the
    insert, replace, append and copy of a plain reply (the apology for
    a failed request among them), never both and never neither. *)
Theorem every_message_offers_one_set (w : World) :
  Reachable w ->
  Forall offers_one_set (SOWStore.chatMessages (store w)).
Proof.
  intros H. apply messages_ok_invariant in H.
  eapply Forall_impl; [|exact H].
  apply message_ok_offers_one_set.
Qed.

Lemma every_message_offers_one_set_witness :
  Forall offers_one_set
         (SOWStore.chatMessages
            (store (ChatPanel.handleSendMessage
                      3 (mkWorld None [] SOWStore.initial "hello" [])))).
Proof.
  apply every_message_offers_one_set.
  apply (reach_submit _ 3).
  apply (reach_type_input initial "hello").
  apply reach_initial.
Defined.

(** ** A proposal without an editor *)

(** X18.  While no editor is attached applySuggestion returns without
    doing anything and without saying so: a proposal, whatever its
    action and content, is still shown in the chat as a suggestion with
    applied = true, no error message is stored, and there is no
    document that holds it. *)
Theorem proposal_without_editor_is_marked_applied
        (request : Request) (response : string) (payload : Json.value)
        (now now' : nat) (w : World) :
  editorRef w = None ->
  Json.parse response = Some payload ->
  ChatPanel.is_suggestion payload = true ->
  exists w',
    ChatPanel.handleReply request (Resolved response) now now' w = Some w' /\
    editorRef w' = None /\
    SOWStore.chatMessages (store w')
    = SOWStore.chatMessages (store w)
        ++ [mkChatMessage now' assistant (Json.get payload "content")
              (Json.get payload "explanation")
              (Some (ChatPanel.build_suggestion payload request now))
              true now'] /\
    applied (ChatPanel.build_suggestion payload request now) = true.
Proof.
  intros He Hp Hs. unfold ChatPanel.handleReply.
  rewrite Hp, Hs, He. cbn [EditorContext.applySuggestion].
  eexists. split; [reflexivity|].
  rewrite settle_editorRef, settle_store. repeat split.
Qed.

Lemma proposal_without_editor_is_marked_applied_witness :
  exists w',
    ChatPanel.handleReply request_hi (Resolved payload_hello) 1 2 initial
    = Some w' /\
    editorRef w' = None /\
    map hasSuggestion (SOWStore.chatMessages (store w')) = [true] /\
    map (option_map applied) (map msg_suggestion
                                  (SOWStore.chatMessages (store w')))
    = [Some true].
Proof.
  destruct (proposal_without_editor_is_marked_applied
              request_hi payload_hello
              (Json.JObject [("type", Json.JString "suggestion");
                             ("action", Json.JString "insert");
                             ("content", Json.JString "Hello");
                             ("explanation", Json.JString "greeting")])
              1 2 initial eq_refl eq_refl eq_refl)
    as (w' & Hr & He & Hm & _).
  exists w'. split; [exact Hr|]. split; [exact He|].
  rewrite Hm. split; reflexivity.
Defined.

(** ** A proposal whose content is no text *)

Lemma insertText_of_nothing (t : Json.js) (e : Slate.Editor) (r : Slate.Range) :
  Slate.selection e = Some r ->
  t = None \/ t = Some Json.JNull ->
  Slate.insertText_of t e = Some (Throw (Slate.insertText [] e)).
Proof.
  intros Hs Ht. unfold Slate.insertText_of. rewrite Hs.
  now destruct Ht as [->| ->].
Qed.

Lemma strict_eq_string_false (x : Json.js) (lit : string) :
  x <> text lit -> Json.strict_eq_string x lit = false.
Proof.
  intros H. destruct (Json.strict_eq_string x lit) eqn:E; [|reflexivity].
  now apply strict_eq_string_true in E.
Qed.

(** Without range or position every action but append hands the content
    to insertText. *)
Lemma applySuggestion_inserts (sg : Suggestion) (e : Slate.Editor) :
  range sg = None ->
  position sg = None ->
  type sg <> text "append" ->
  EditorContext.applySuggestion (Some sg) (Some e)
  = EditorContext.on_ref (Slate.insertText_of (content sg) e).
Proof.
  intros Hr Hp Ha. unfold EditorContext.applySuggestion. rewrite Hr, Hp.
  rewrite (strict_eq_string_false _ _ Ha).
  unfold EditorContext.replaceSelection, EditorContext.insertText.
  now repeat destruct (Json.strict_eq_string _ _).
Qed.

(** X19.  A proposal that has no content, or null as content, and any
    action but append, sent to an editor with a selection: insertText
    throws at the length of the text, handleSendMessage catches it and
    stores the apology instead of the proposal.  The selected text is
    gone all the same: the selection was deleted before the throw. *)
Theorem proposal_without_content_ends_in_apology
        (request : Request) (response : string) (payload : Json.value)
        (now now' : nat) (w : World) (e : Slate.Editor) (r : Slate.Range) :
  Json.parse response = Some payload ->
  ChatPanel.is_suggestion payload = true ->
  Json.get payload "content" = None
  \/ Json.get payload "content" = Some Json.JNull ->
  Json.get payload "action" <> text "append" ->
  editorRef w = Some e ->
  Slate.wf e ->
  Slate.selection e = Some r ->
  exists w' e',
    ChatPanel.handleReply request (Resolved response) now now' w = Some w' /\
    SOWStore.chatMessages (store w')
    = SOWStore.chatMessages (store w)
        ++ [mkChatMessage now' assistant (text ChatPanel.apology) None None
                          false now'] /\
    editorRef w' = Some e' /\
    Slate.doc e'
    = firstn (Slate.range_start r) (Slate.doc e)
        ++ skipn (Slate.range_end r) (Slate.doc e).
Proof.
  intros Hp Hs Hc Ha He Hwf Hsel.
  unfold ChatPanel.handleReply. rewrite Hp, Hs, He.
  rewrite applySuggestion_inserts by (try reflexivity; exact Ha).
  cbn [ChatPanel.build_suggestion content].
  rewrite (insertText_of_nothing _ _ r Hsel Hc). cbn [EditorContext.on_ref].
  do 2 eexists. split; [reflexivity|].
  rewrite settle_store, settle_editorRef.
  cbn [ChatPanel.finish with_editor editorRef store option_map].
  split; [reflexivity|]. split; [reflexivity|].
  cbn [Slate.flush Slate.doc].
  now rewrite (insertText_doc [] e r Hwf Hsel).
Qed.

Lemma proposal_without_content_ends_in_apology_witness :
  exists w' e',
    ChatPanel.handleReply request_hi (Resolved payload_no_content) 1 2
                          world_old_text = Some w' /\
    SOWStore.chatMessages (store w')
    = [mkChatMessage 2 assistant (text ChatPanel.apology) None None false 2] /\
    editorRef w' = Some e' /\
    Slate.doc e' = list_ascii_of_string "the  here".
Proof.
  apply (proposal_without_content_ends_in_apology
           request_hi payload_no_content
           (Json.JObject [("type", Json.JString "suggestion");
                          ("action", Json.JString "replace");
                          ("explanation", Json.JString "shorter")])
           1 2 world_old_text editor_old_text (Slate.mkRange 4 12));
    try (vm_compute; reflexivity).
  - left. reflexivity.
  - discriminate.
  - vm_compute. lia.
Defined.

Lemma insertAtEnd_doc (t : list ascii) (e : Slate.Editor) :
  let e2 := Slate.insertText
              t (Slate.select (Slate.collapsed_at (Slate.end_ e)) e) in
  Slate.doc match Slate.selection e with
            | Some r => Slate.select r e2
            | None => e2
            end
  = Slate.doc e ++ t.
Proof.
  set (e1 := Slate.select (Slate.collapsed_at (Slate.end_ e)) e).
  assert (Hs1 : Slate.selection e1 = Some (Slate.collapsed_at (Slate.end_ e)))
    by apply select_selection.
  assert (Hd1 : Slate.doc e1 = Slate.doc e) by apply select_doc.
  assert (Hwf1 : Slate.wf e1).
  { unfold Slate.wf. rewrite Hs1, Hd1. unfold Slate.end_. simpl. lia. }
  assert (Hd2 : Slate.doc (Slate.insertText t e1) = Slate.doc e ++ t).
  { rewrite (insertText_doc t e1 _ Hwf1 Hs1), Hd1.
    unfold Slate.range_start, Slate.range_end, Slate.end_. simpl.
    rewrite Nat.min_id, Nat.max_id, firstn_all, skipn_all.
    now rewrite app_nil_r. }
  cbv zeta. fold e1. destruct (Slate.selection e); [|exact Hd2].
  now rewrite select_doc.
Qed.

(** X20.  An append proposal appends whatever its content is, made a
    string the way JavaScript concatenates: a missing content reads
    undefined, null reads null, a number its shortest decimal form, an
    array its elements joined by commas.  Only an object that carries a
    member toString of its own cannot be made a string: the
    concatenation throws after the cursor was moved to the end, and the
    document is left as it was. *)
Theorem append_coerces_content (sg : Suggestion) (e : Slate.Editor) :
  type sg = text "append" ->
  (forall s, Json.js_to_string (content sg) = Some s ->
     exists e',
       EditorContext.applySuggestion (Some sg) (Some e)
       = Some (Normal (Some e')) /\
       Slate.doc e'
       = Slate.doc e ++ EditorContext.newline :: list_ascii_of_string s) /\
  (Json.js_to_string (content sg) = None ->
   exists e',
     EditorContext.applySuggestion (Some sg) (Some e)
     = Some (Throw (Some e')) /\
     Slate.doc e' = Slate.doc e /\
     Slate.selection e'
     = Some (Slate.collapsed_at (length (Slate.doc e)))).
Proof.
  intros Ht.
  assert (Ha : EditorContext.applySuggestion (Some sg) (Some e)
               = EditorContext.insertAtEnd (content sg) (Some e)).
  { unfold EditorContext.applySuggestion. now rewrite Ht. }
  rewrite Ha. unfold EditorContext.insertAtEnd. split.
  - intros s ->. eexists. split; [reflexivity|]. apply insertAtEnd_doc.
  - intros ->. eexists. split; [reflexivity|].
    split; [apply select_doc|apply select_selection].
Qed.

Lemma append_coerces_content_witness :
  (exists e',
      EditorContext.applySuggestion (Some suggestion_number) (Some editor_ab)
      = Some (Normal (Some e')) /\
      Slate.doc e'
      = list_ascii_of_string "ab" ++ EditorContext.newline
          :: list_ascii_of_string "1.5") /\
  (exists e',
      EditorContext.applySuggestion (Some (suggestion_missing "append"))
                                    (Some editor_ab)
      = Some (Normal (Some e')) /\
      Slate.doc e'
      = list_ascii_of_string "ab" ++ EditorContext.newline
          :: list_ascii_of_string "undefined").
Proof.
  split.
  - apply (proj1 (append_coerces_content suggestion_number editor_ab eq_refl)).
    vm_compute. reflexivity.
  - apply (proj1 (append_coerces_content (suggestion_missing "append")
                                         editor_ab eq_refl)).
    reflexivity.
Defined.
